(** * django_mako_plus.router: the view dispatch layer

    A shallow embedding of [django_mako_plus/router.py] (and of the packaged
    variant [django_mako_plus/router/router_class.py]): the front controller
    [route_request], the factory [router_factory] and the four router
    classes.

    - A Python call that may raise is a value of [res]; a computation also
      leaves the chronological trace of what it did to the outside (log
      calls, signals sent, imports, converter calls, view calls).
    - The collaborators the module imports (importlib, the template loader,
      the signals, the converters, the redirect exceptions) are the fields
      of one record, [Env]; views, view classes and modules are records of
      what introspection says about them and of what calling them does.
    - The [while True] loop of [route_request] is a fixpoint over a budget
      of passes; the request object is threaded through it.  Views and
      signal receivers are taken not to modify the request.
    - Dictionaries of keyword arguments are finite maps; the [endpoints]
      dictionary, whose key order is observable, is an association list. *)

From Stdlib Require Import ZArith.
From stdpp Require Import gmap strings list fin_maps.

(** ** Python values *)

(** The fields of the request object read by this module.  The cached
    router, [request.dmp_router_callback], is kept beside this record (see
    [Request] below), because routers are built from values. *)
Record RequestData := {
  method : string;
  path : string;
  urlparams : list string;
  dmp_router_app : string;
  dmp_router_page : string;
  dmp_router_module : string;
  dmp_router_function : string;
  dmp_router_class : option string;
}.

(** [HttpResponse] and the subclasses this module names; every constructor
    but [StreamingHttpResponse] is a subclass of [HttpResponse]. *)
Inductive response :=
| HttpResponse (status : Z) (content : string)
| StreamingHttpResponse (status : Z)
| HttpResponseNotAllowed (permitted_methods : list string)
| HttpResponseNotFound (content : string).

Definition status_code (r : response) : Z :=
  match r with
  | HttpResponse s _ => s
  | StreamingHttpResponse s => s
  | HttpResponseNotAllowed _ => 405
  | HttpResponseNotFound _ => 404
  end.

Inductive value :=
| VNone
| VStr (s : string)
| VInt (n : Z)
| VType (qualname : string)        (* a class used as an annotation *)
| VParamEmpty                      (* inspect.Parameter.empty *)
| VRequest (r : RequestData)
| VResponse (r : response).

(** [isinstance(v, (HttpResponse, StreamingHttpResponse))] *)
Definition is_response (v : value) : bool :=
  match v with VResponse _ => true | _ => false end.

(** ** Exceptions, traces and the effect monad *)

Inductive exn :=
| ImproperlyConfigured (msg : string)
| ViewDoesNotExist (msg : string)
| TemplateDoesNotExist (msg : string)
| Http404
| NotDecoratedError
| InternalRedirectException (redirect_module redirect_function : string)
| RedirectException (redirect_to : string)
| ImportError (msg : string)
| AttributeError (msg : string)
| ValueError (msg : string)
| NameError (name : string)
| OtherException (cls msg : string).

(** [str(exc)] for the exceptions built from one message. *)
Definition exn_str (e : exn) : string :=
  match e with
  | ImproperlyConfigured m | ViewDoesNotExist m | TemplateDoesNotExist m
  | ImportError m | AttributeError m | ValueError m | OtherException _ m => m
  | NameError n => "name '" +:+ n +:+ "' is not defined"
  | RedirectException t => t
  | InternalRedirectException m f => m +:+ "." +:+ f
  | Http404 | NotDecoratedError => ""
  end.

Inductive res (A : Type) :=
| Return (a : A)
| Raise (e : exn).
Arguments Return {A} a.
Arguments Raise {A} e.

Inductive level := INFO | WARNING | ERROR.

Inductive log_record :=
| LogProcessing (app page module func : string) (params : list string)
| LogText (msg : string).

Inductive signal :=
| dmp_signal_pre_process_request
| dmp_signal_post_process_request
| dmp_signal_internal_redirect_exception
| dmp_signal_redirect_exception.

(** What the module does to the outside, in the order it does it. *)
Inductive event :=
| EvLog (lvl : level) (rec : log_record)        (* a call of log.info/warning/error *)
| EvSend (s : signal)                           (* signal.send(...): its receivers run *)
| EvImport (module_name : string)               (* import_module(...) *)
| EvConvert (own : bool) (param : string) (v : value)   (* a converter is called *)
| EvCall (qualname : string) (args : list value) (kwargs : gmap string value).

(** A computation yields a value or raises, and leaves a trace either way. *)
Definition M (A : Type) : Type := res A * list event.

Definition ret {A} (a : A) : M A := (Return a, []).
Definition throw {A} (e : exn) : M A := (Raise e, []).
Definition emit (ev : event) : M unit := (Return tt, [ev]).
Definition lift {A} (r : res A) : M A := (r, []).

Definition bind {A B} (c : M A) (k : A -> M B) : M B :=
  match c with
  | (Return a, t) => let '(r, t') := k a in (r, t ++ t')
  | (Raise e, t) => (Raise e, t)
  end.

(** [try: c except <handled>: h] *)
Definition catch {A} (c : M A) (h : exn -> option (M A)) : M A :=
  match c with
  | (Return a, t) => (Return a, t)
  | (Raise e, t) =>
      match h e with
      | Some k => let '(r, t') := k in (r, t ++ t')
      | None => (Raise e, t)
      end
  end.

Notation "'let!' x ':=' c 'in' k" := (bind c (fun x => k))
  (at level 10, x pattern, c at level 100, k at level 200).

(** ** View parameters and conversion *)

Record ConversionTask := {
  ct_request : RequestData;
  ct_decorator_kwargs : option (gmap string value);
  ct_module : string;            (* the module, by name *)
  ct_function : string;          (* the function, by qualified name *)
}.

Record ParameterData := {
  name : string;
  type : value;
  default : value;
}.

(** A converter is called as [converter(value, parameter, ctask)]; it may
    raise ([Http404], [RedirectException], ...). *)
Definition converter_fn : Type :=
  value -> ParameterData -> ConversionTask -> res value.

(** [class ViewParameter]: the three data fields and the optional converter. *)
Record ViewParameter := {
  vp_data :> ParameterData;
  converter : option converter_fn;
}.

(** ** Functions, classes and modules as the factory sees them *)

(** One entry of [inspect.signature(func).parameters.values()]. *)
Record SigParameter := {
  p_name : string;
  p_default : value;
}.

(** A callable handed to [ViewFunctionRouter]: what introspection and the
    decorator registry say about it, and what calling it does. *)
Record function_obj := {
  fn_qualname : string;
  fn_signature : res (list SigParameter);      (* inspect.signature(func) may raise *)
  fn_annotations : gmap string value;       (* getattr(func, '__annotations__', {}) *)
  fn_decoration : option (list value * gmap string value);
                                            (* view_function.get_args(func)[0], if decorated *)
  fn_view_parameter : ViewParameter -> ViewParameter;
                                            (* view_parameter.update(func, vp) *)
  fn_call : list value -> gmap string value -> res value;
}.

(** An instance of a [View] subclass: [getattr(instance, name, None)] is
    [inst_attrs !! name]. *)
Record view_instance := {
  http_method_names : list string;
  inst_attrs : gmap string function_obj;
}.

Record view_class := {
  cls_qualname : string;
  cls_decoration : option (list value * gmap string value);
  cls_new : res view_instance;              (* func() *)
}.

Inductive pyobj :=
| PyNone
| PyFunction (f : function_obj)             (* not a subclass of View *)
| PyViewClass (c : view_class).             (* inspect.isclass and issubclass(_, View) *)

Record PyModule := {
  mod_name : string;
  mod_attrs : gmap string pyobj;
}.

Record Template := {
  render_to_response : RequestData -> gmap string value -> res value;
}.

(** ** Collaborators *)

Record Env := {
  SIGNALS : bool;                           (* DMP_OPTIONS.get('SIGNALS', False) *)
  log_info_enabled : bool;                  (* log.isEnabledFor(logging.INFO) *)
  pre_receivers : list (RequestData -> res value);
  post_receivers : list (RequestData -> value -> res value);
  internal_redirect_receivers : list (RequestData -> exn -> res value);
  redirect_receivers : list (RequestData -> exn -> res value);
  find_spec : string -> res (option unit);
  import_module : string -> res PyModule;
  get_template : string -> string -> res Template;
      (* get_dmp_instance().get_template_loader(app).get_template(name) *)
  redirect_get_response : string -> RequestData -> res value;
      (* RedirectException.get_response(request) *)
  task_converter : ConversionTask -> converter_fn;     (* ctask.converter *)
  urlparam_placeholder : value;
  str_lower : string -> string;             (* str.lower() *)
  str_upper : string -> string;             (* str.upper() *)
}.

(** Modelled from the spec: [request.urlparams] is the URL-parameter list,
    whose class belongs to a module
    that is not part of this development.  [check_length(n)] validates that
    the number of positional URL parameters does not exceed [n] and fails
    with the not-found signal otherwise. *)
Definition check_length (params : list string) (n : nat) : M unit :=
  if n <? length params then throw Http404 else ret tt.

(** Modelled from the spec: indexing the URL-parameter list gives the
    segment supplied at that position; past the supplied segments it does
    not fail but yields the list's placeholder for a missing segment. *)
Definition urlparams_getitem (env : Env) (params : list string) (i : nat) : value :=
  match params !! i with
  | Some s => VStr s
  | None => urlparam_placeholder env
  end.

(** ** ViewFunctionRouter *)

Record ViewFunctionRouter := {
  vfr_module : PyModule;
  function : function_obj;
  decorator_kwargs : option (gmap string value);
  parameters : list ViewParameter;
}.

Module ViewFunctionRouter.

(** [__init__]: one [ViewParameter] per formal parameter but the first. *)
Definition init (mod_ : PyModule) (func : function_obj)
    (dk : option (gmap string value)) : M ViewFunctionRouter :=
  let! sig := lift (fn_signature func) in
  let params :=
    map (fun p =>
           fn_view_parameter func
             {| vp_data := {| name := p_name p;
                              type := option.default VParamEmpty (fn_annotations func !! p_name p);
                              default := p_default p |};
                converter := None |})
        (drop 1 sig) in
  ret {| vfr_module := mod_; function := func; decorator_kwargs := dk;
         parameters := params |}.

(** One pass of the loop body for [parameter] at index [i]. *)
Definition convert_one (env : Env) (ctask : ConversionTask) (request : RequestData)
    (i : nat) (parameter : ViewParameter) (kwargs : gmap string value)
    : M (value * gmap string value) :=
  (* value = kwargs.pop(parameter.name, request.urlparams[i]) *)
  let value := option.default (urlparams_getitem env (urlparams request) i)
                            (kwargs !! name parameter) in
  let kwargs := delete (name parameter) kwargs in
  match converter parameter with
  | Some conv =>
      let! _ := emit (EvConvert true (name parameter) value) in
      let! v := lift (conv value parameter ctask) in
      ret (v, kwargs)
  | None =>
      let! _ := emit (EvConvert false (name parameter) value) in
      let! v := lift (task_converter env ctask value parameter ctask) in
      ret (v, kwargs)
  end.

(** [for i, parameter in enumerate(self.parameters)], from index [i]. *)
Fixpoint convert_from (env : Env) (ctask : ConversionTask) (request : RequestData)
    (i : nat) (params : list ViewParameter)
    (args : list value) (kwargs : gmap string value)
    : M (list value * gmap string value) :=
  match params with
  | [] => ret (args, kwargs)
  | parameter :: rest =>
      let! (v, kwargs) := convert_one env ctask request i parameter kwargs in
      convert_from env ctask request (S i) rest (args ++ [v]) kwargs
  end.

Definition make_task (self : ViewFunctionRouter) (request : RequestData) : ConversionTask :=
  {| ct_request := request;
     ct_decorator_kwargs := decorator_kwargs self;
     ct_module := mod_name (vfr_module self);
     ct_function := fn_qualname (function self) |}.

Definition get_response (env : Env) (self : ViewFunctionRouter)
    (request : RequestData) (kwargs : gmap string value) : M value :=
  let! _ := check_length (urlparams request) (length (parameters self)) in
  let ctask := make_task self request in
  let! (args, kwargs) := convert_from env ctask request 0 (parameters self)
                                       [VRequest request] kwargs in
  let! _ := emit (EvCall (fn_qualname (function self)) args kwargs) in
  lift (fn_call (function self) args kwargs).

Definition message (request : RequestData) : string :=
  "view function " +:+ dmp_router_module request +:+ "." +:+ dmp_router_function request.

End ViewFunctionRouter.

(** ** Insertion-ordered dictionaries with string keys *)

Section Dict.
Context {V : Type}.

(** [d[k] = v]: an existing key keeps its position. *)
Fixpoint dict_set (k : string) (v : V) (d : list (string * V)) : list (string * V) :=
  match d with
  | [] => [(k, v)]
  | (k', v') :: d' =>
      if String.eqb k k' then (k, v) :: d' else (k', v') :: dict_set k v d'
  end.

(** [d.get(k)] *)
Fixpoint dict_get (k : string) (d : list (string * V)) : option V :=
  match d with
  | [] => None
  | (k', v) :: d' => if String.eqb k k' then Some v else dict_get k d'
  end.

Definition dict_keys (d : list (string * V)) : list string := map fst d.
End Dict.

(** ** ClassBasedRouter *)

Record ClassBasedRouter (Endpoint : Type) := {
  endpoints : list (string * Endpoint);
}.
Arguments endpoints {Endpoint} _.

(** The class is written twice, in [router.py] and in
    [router/router_class.py]; the two differ in the level of the log call
    and in where [ViewFunctionRouter] comes from, so both are parameters
    here.  So are the builtins [str.lower] and [str.upper], which follow the
    Unicode case mappings. *)
Module ClassBasedRouter.
Section WithEndpoint.
Context {Endpoint : Type}.
Variable new_endpoint :
  PyModule -> function_obj -> option (gmap string value) -> M Endpoint.
Variable endpoint_get_response :
  Endpoint -> RequestData -> gmap string value -> M value.
Variable not_allowed_level : level.
Variable lower upper : string -> string.

(** [for mthd_name in instance.http_method_names] *)
Fixpoint collect (module : PyModule) (instance : view_instance)
    (dk : option (gmap string value)) (names : list string)
    (eps : list (string * Endpoint)) : M (list (string * Endpoint)) :=
  match names with
  | [] => ret eps
  | mthd_name :: rest =>
      match inst_attrs instance !! mthd_name with
      | Some func =>
          let! ep := new_endpoint module func dk in
          collect module instance dk rest (dict_set mthd_name ep eps)
      | None => collect module instance dk rest eps
      end
  end.

Definition init (module : PyModule) (instance : view_instance)
    (dk : option (gmap string value)) : M (ClassBasedRouter Endpoint) :=
  let! eps := collect module instance dk (http_method_names instance) [] in
  ret {| endpoints := eps |}.

Definition get_response (self : ClassBasedRouter Endpoint)
    (request : RequestData) (kwargs : gmap string value) : M value :=
  match dict_get (lower (method request)) (endpoints self) with
  | Some endpoint => endpoint_get_response endpoint request kwargs
  | None =>
      let! _ := emit (EvLog not_allowed_level
                        (LogText ("Method Not Allowed (" +:+ method request +:+ "): "
                                  +:+ path request))) in
      ret (VResponse (HttpResponseNotAllowed (map upper (dict_keys (endpoints self)))))
  end.
End WithEndpoint.

Definition str_or_None (o : option string) : string :=
  match o with Some s => s | None => "None" end.

Definition message (request : RequestData) : string :=
  "class-based view function " +:+ dmp_router_module request +:+ "."
    +:+ str_or_None (dmp_router_class request) +:+ "." +:+ dmp_router_function request.
End ClassBasedRouter.

(** ** TemplateViewRouter *)

Record TemplateViewRouter := {
  app_name : string;
  template_name : string;
}.

Module TemplateViewRouter.
(** [__init__] checks the template by loading it. *)
Definition init (env : Env) (app template : string) : M TemplateViewRouter :=
  let! _ := lift (get_template env app template) in
  ret {| app_name := app; template_name := template |}.

Definition get_response (env : Env) (self : TemplateViewRouter)
    (request : RequestData) (kwargs : gmap string value) : M value :=
  let! template := lift (get_template env (app_name self) (template_name self)) in
  lift (render_to_response template request kwargs).

Definition message (self : TemplateViewRouter) (request : RequestData) : string :=
  "template " +:+ template_name self +:+ " (view function "
    +:+ dmp_router_module request +:+ "." +:+ dmp_router_function request +:+ " not found)".
End TemplateViewRouter.

(** ** RegistryExceptionRouter *)

(** The names bound at the top level of [router.py]: its imports and its
    own definitions.  A free name of a function body that is neither here
    nor a builtin raises [NameError] when the body reaches it. *)
Definition router_globals : list string :=
  [ "settings"; "url"; "ImproperlyConfigured"; "ViewDoesNotExist";
    "HttpRequest"; "HttpResponse"; "StreamingHttpResponse";
    "Http404"; "HttpResponseNotAllowed"; "TemplateDoesNotExist"; "View";
    "ConversionTask"; "view_function"; "view_parameter"; "NotDecoratedError";
    "InternalRedirectException"; "RedirectException";
    "dmp_signal_pre_process_request"; "dmp_signal_post_process_request";
    "dmp_signal_internal_redirect_exception"; "dmp_signal_redirect_exception";
    "get_dmp_instance"; "get_dmp_app_configs"; "log"; "DMP_OPTIONS";
    "sys"; "logging"; "inspect"; "import_module"; "find_spec"; "namedtuple";
    "route_request"; "router_factory"; "ViewFunctionRouter"; "ClassBasedRouter";
    "TemplateViewRouter"; "RegistryExceptionRouter"; "ViewParameter" ].

Definition global_bound (name : string) : bool :=
  existsb (String.eqb name) router_globals.

Record RegistryExceptionRouter := {
  exc : exn;
}.

Module RegistryExceptionRouter.
(** [return HttpResponseNotFound(str(self.exc))]: the name is looked up
    in the module's globals when the body runs. *)
Definition get_response (self : RegistryExceptionRouter)
    (request : RequestData) (kwargs : gmap string value) : M value :=
  if global_bound "HttpResponseNotFound"
  then ret (VResponse (HttpResponseNotFound (exn_str (exc self))))
  else throw (NameError "HttpResponseNotFound").

Definition message (self : RegistryExceptionRouter) (request : RequestData) : string :=
  exn_str (exc self).
End RegistryExceptionRouter.

(** ** The routers as one type *)

Inductive Router :=
| FunctionRouter (r : ViewFunctionRouter)
| ClassRouter (r : ClassBasedRouter ViewFunctionRouter)
| TemplateRouter (r : TemplateViewRouter)
| ExceptionRouter (r : RegistryExceptionRouter).

(** [router.py]'s [ClassBasedRouter]: endpoints are [ViewFunctionRouter]s
    and the refusal is logged with [log.warning]. *)
Definition class_init (module : PyModule) (instance : view_instance)
    (dk : option (gmap string value)) : M (ClassBasedRouter ViewFunctionRouter) :=
  ClassBasedRouter.init ViewFunctionRouter.init module instance dk.

Definition class_get_response (env : Env) (self : ClassBasedRouter ViewFunctionRouter)
    (request : RequestData) (kwargs : gmap string value) : M value :=
  ClassBasedRouter.get_response (ViewFunctionRouter.get_response env) WARNING
    (str_lower env) (str_upper env) self request kwargs.

Definition router_get_response (env : Env) (r : Router)
    (request : RequestData) (kwargs : gmap string value) : M value :=
  match r with
  | FunctionRouter f => ViewFunctionRouter.get_response env f request kwargs
  | ClassRouter c => class_get_response env c request kwargs
  | TemplateRouter t => TemplateViewRouter.get_response env t request kwargs
  | ExceptionRouter x => RegistryExceptionRouter.get_response x request kwargs
  end.

Definition router_message (r : Router) (request : RequestData) : string :=
  match r with
  | FunctionRouter _ => ViewFunctionRouter.message request
  | ClassRouter _ => ClassBasedRouter.message request
  | TemplateRouter t => TemplateViewRouter.message t request
  | ExceptionRouter x => RegistryExceptionRouter.message x request
  end.

(** ** router_factory *)

(** [getattr(obj, name)] on a module. *)
Definition getattr (module : PyModule) (attr : string) : M pyobj :=
  match mod_attrs module !! attr with
  | Some o => ret o
  | None => throw (AttributeError ("module '" +:+ mod_name module
                                   +:+ "' has no attribute '" +:+ attr +:+ "'"))
  end.

(** Modelled from the spec: the decorator collaborator keeps, out of band,
    a marker that a function was registered as a dispatchable view.
    [view_function.get_args(func)[0]] is the registered (args, kwargs) pair
    and raises [NotDecoratedError] without the marker;
    [view_function.is_decorated(func)] tests the marker. *)
Definition decoration (func : pyobj) : option (list value * gmap string value) :=
  match func with
  | PyNone => None
  | PyFunction f => fn_decoration f
  | PyViewClass c => cls_decoration c
  end.

Definition view_function_get_args_0 (func : pyobj) : M (list value * gmap string value) :=
  match decoration func with
  | Some ak => ret ak
  | None => throw NotDecoratedError
  end.

Definition view_function_is_decorated (func : pyobj) : bool :=
  match decoration func with Some _ => true | None => false end.

Definition not_found_msg (module_name fallback_template : string) (e : exn) : string :=
  "View module " +:+ module_name +:+ " not found, and fallback template "
    +:+ fallback_template +:+ " could not be loaded (" +:+ exn_str e +:+ ")".

Definition not_defined_msg (module_name function_name : string) : string :=
  "Module " +:+ module_name +:+ " found successfully, but view "
    +:+ function_name +:+ " is not defined in the module.".

Definition not_decorated_msg (module_name function_name : string) : string :=
  "View " +:+ module_name +:+ "." +:+ function_name
    +:+ " was found successfully, but it must be decorated with @view_function or be a subclass of django.views.generic.View.".

(** The body of the outer [try] of [router_factory]. *)
Definition router_factory_body (env : Env)
    (app_name module_name function_name fallback_template : string) : M Router :=
  let! spec :=
    catch (lift (find_spec env module_name))
          (fun e => match e with ValueError _ => Some (ret None) | _ => None end) in
  match spec with
  | None =>
      (* no view module, can we call the template directly? *)
      catch (let! r := TemplateViewRouter.init env app_name fallback_template in
             ret (TemplateRouter r))
            (fun e => match e with
                      | TemplateDoesNotExist _ =>
                          Some (throw (ViewDoesNotExist
                                         (not_found_msg module_name fallback_template e)))
                      | _ => None
                      end)
  | Some _ =>
      (* get the function from the module *)
      let! _ := emit (EvImport module_name) in
      let! module := lift (import_module env module_name) in
      let! func :=
        catch (getattr module function_name)
              (fun e => match e with
                        | AttributeError _ =>
                            Some (throw (ViewDoesNotExist
                                           (not_defined_msg module_name function_name)))
                        | _ => None
                        end) in
      (* class-based view? *)
      let! decorator_kwargs :=
        catch (let! (_, kw) := view_function_get_args_0 func in ret (Some kw))
              (fun e => match e with NotDecoratedError => Some (ret None) | _ => None end) in
      match func with
      | PyViewClass cls =>
          let! instance := lift (cls_new cls) in
          let! r := class_init module instance decorator_kwargs in
          ret (ClassRouter r)
      | PyFunction f =>
          (* it's a view function: ensure it was @view_function *)
          if view_function_is_decorated func
          then let! r := ViewFunctionRouter.init module f decorator_kwargs in
               ret (FunctionRouter r)
          else throw (ViewDoesNotExist (not_decorated_msg module_name function_name))
      | PyNone =>
          throw (ViewDoesNotExist (not_decorated_msg module_name function_name))
      end
  end.

Definition router_factory (env : Env)
    (app_name module_name function_name fallback_template : string) : M Router :=
  catch (router_factory_body env app_name module_name function_name fallback_template)
        (fun e => match e with
                  | ViewDoesNotExist _ =>
                      Some (ret (ExceptionRouter {| exc := e |}))
                  | _ => None
                  end).

(** ** route_request *)

(** What [request.dmp_router_callback] can hold. *)
Inductive callback :=
| CbNone                               (* unset, or None *)
| CbViewDoesNotExist (msg : string)    (* a ViewDoesNotExist instance *)
| CbRouter (r : Router)
| CbObject (o : pyobj).                (* a module attribute, stored by an internal redirect *)

Record Request := {
  data : RequestData;
  dmp_router_callback : callback;
}.

(** [request.dmp_router_callback.message(request)].  Routers define
    [message]; [ViewDoesNotExist] is Django's bare [Exception] subclass and
    functions and classes are plain objects, so the attribute lookup fails
    on them. *)
Definition callback_message (cb : callback) (request : RequestData) : M string :=
  match cb with
  | CbRouter r => ret (router_message r request)
  | CbViewDoesNotExist _ =>
      throw (AttributeError "'ViewDoesNotExist' object has no attribute 'message'")
  | CbNone => throw (AttributeError "'NoneType' object has no attribute 'message'")
  | CbObject _ => throw (AttributeError "object has no attribute 'message'")
  end.

(** [request.dmp_router_callback.get_response(request, **kwargs)] *)
Definition callback_get_response (env : Env) (cb : callback)
    (request : RequestData) (kwargs : gmap string value) : M value :=
  match cb with
  | CbRouter r => router_get_response env r request kwargs
  | CbViewDoesNotExist _ =>
      throw (AttributeError "'ViewDoesNotExist' object has no attribute 'get_response'")
  | CbNone => throw (AttributeError "'NoneType' object has no attribute 'get_response'")
  | CbObject _ => throw (AttributeError "object has no attribute 'get_response'")
  end.

(** [signal.send(...)]: every receiver is called, in order; the first
    exception of a receiver propagates. *)
Fixpoint call_receivers (rs : list (res value)) : M (list value) :=
  match rs with
  | [] => ret []
  | r :: rest =>
      let! v := lift r in
      let! vs := call_receivers rest in
      ret (v :: vs)
  end.

Definition send (s : signal) (rs : list (res value)) : M (list value) :=
  let! _ := emit (EvSend s) in
  call_receivers rs.

(** The pre-signal loop: the first receiver result that is a response. *)
Definition first_response (rets : list value) : option value :=
  find is_response rets.

(** The post-signal loop: the last result that is not [None] wins. *)
Definition is_None (v : value) : bool :=
  match v with VNone => true | _ => false end.

Definition last_not_None (response : value) (rets : list value) : value :=
  fold_left (fun response ret_response =>
               if is_None ret_response then response else ret_response)
            rets response.

(** [isinstance(cb, ViewDoesNotExist) or isinstance(cb, RegistryExceptionRouter)] *)
Definition is_not_found_marker (cb : callback) : bool :=
  match cb with
  | CbViewDoesNotExist _ => true
  | CbRouter (ExceptionRouter _) => true
  | _ => false
  end.

Definition missing_callback_msg : string :=
  "Variable request.dmp_router_callback does not exist (check MIDDLEWARE for `django_mako_plus.RequestInitMiddleware`).".

Definition failed_msg (m : string) : string :=
  m +:+ " failed to return an HttpResponse (or the post-signal overwrote it).  Returning Http404.".

(** The first half of the outer [try] in the loop, up to the pre-signal:
    [Some r] when the response [r] of a pre-signal receiver is returned. *)
Definition pre_dispatch (env : Env) (request : Request) : M (option value) :=
  let rd := data request in
  let cb := dmp_router_callback request in
  match cb with
  | CbNone | CbObject PyNone => throw (ImproperlyConfigured missing_callback_msg)
  | _ =>
    let! _ :=
      if log_info_enabled env
      then emit (EvLog INFO (LogProcessing (dmp_router_app rd) (dmp_router_page rd)
                               (dmp_router_module rd) (dmp_router_function rd)
                               (urlparams rd)))
      else ret tt in
    (* if we had a view not found, raise a 404 *)
    if is_not_found_marker cb
    then let! m := callback_message cb rd in
         let! _ := emit (EvLog ERROR (LogText m)) in
         throw Http404
    else
    (* send the pre-signal *)
    if SIGNALS env
    then let! rets := send dmp_signal_pre_process_request
                           (map (fun f => f rd) (pre_receivers env)) in
         ret (first_response rets)
    else ret None
  end.

(** The post-signal: the response after the receivers have had their say. *)
Definition post_signal (env : Env) (rd : RequestData) (response : value) : M value :=
  if SIGNALS env
  then let! rets := send dmp_signal_post_process_request
                         (map (fun f => f rd response) (post_receivers env)) in
       ret (last_not_None response rets)
  else ret response.

(** The second half: the view is called and its result checked. *)
Definition dispatch (env : Env) (request : Request) (kwargs : gmap string value) : M value :=
  let rd := data request in
  let cb := dmp_router_callback request in
  let! _ :=
    if log_info_enabled env
    then let! m := callback_message cb rd in
         emit (EvLog INFO (LogText ("calling " +:+ m)))
    else ret tt in
  (* call view function with any args and any remaining kwargs *)
  let! response := callback_get_response env cb rd kwargs in
  (* send the post-signal *)
  let! response := post_signal env rd response in
  (* if we didn't get a correct response back, send a 404 *)
  if is_response response
  then ret response
  else let! m := callback_message cb rd in
       let! _ := emit (EvLog ERROR (LogText (failed_msg m))) in
       throw Http404.

(** The body of the outer [try] in the loop; its value is what a [return]
    in it hands to the caller. *)
Definition route_try (env : Env) (request : Request) (kwargs : gmap string value) : M value :=
  let! early := pre_dispatch env request in
  match early with
  | Some ret_response => ret ret_response
  | None => dispatch env request kwargs
  end.

Definition set_target (rd : RequestData) (module function_ : string) : RequestData :=
  {| method := method rd; path := path rd; urlparams := urlparams rd;
     dmp_router_app := dmp_router_app rd; dmp_router_page := dmp_router_page rd;
     dmp_router_module := module; dmp_router_function := function_;
     dmp_router_class := dmp_router_class rd |}.

Definition redirect_not_defined_msg (module function_ : string) : string :=
  "module " +:+ module +:+ " found successfully during internal redirect, but view function "
    +:+ function_ +:+ " is not defined in the module.".

Definition redirect_not_found_msg (module function_ : string) : string :=
  "view " +:+ module +:+ "." +:+ function_ +:+ " not found during internal redirect.".

(** The inner [try] of the internal-redirect handler: the new callback. *)
Definition resolve_redirect (env : Env) (module function_ : string) : M callback :=
  catch (let! _ := emit (EvImport module) in
         let! m := lift (import_module env module) in
         match mod_attrs m !! function_ with
         | None | Some PyNone =>
             ret (CbViewDoesNotExist (redirect_not_defined_msg module function_))
         | Some o => ret (CbObject o)
         end)
        (fun e => match e with
                  | ImportError _ =>
                      Some (ret (CbViewDoesNotExist (redirect_not_found_msg module function_)))
                  | _ => None
                  end).

(** [except InternalRedirectException as ivr] *)
Definition internal_redirect (env : Env) (request : Request) (ivr : exn)
    (redirect_module redirect_function : string) : M Request :=
  let! _ :=
    if SIGNALS env
    then let! _ := send dmp_signal_internal_redirect_exception
                        (map (fun f => f (data request) ivr)
                             (internal_redirect_receivers env)) in
         ret tt
    else ret tt in
  let rd := set_target (data request) redirect_module redirect_function in
  let! cb := resolve_redirect env (dmp_router_module rd) (dmp_router_function rd) in
  let! _ := emit (EvLog INFO (LogText ("received an InternalViewRedirect to "
                                       +:+ dmp_router_module rd +:+ " -> "
                                       +:+ dmp_router_function rd))) in
  ret {| data := rd; dmp_router_callback := cb |}.

(** [except RedirectException as e] *)
Definition external_redirect (env : Env) (request : Request) (e : exn)
    (redirect_to : string) : M value :=
  let rd := data request in
  let! _ :=
    match dmp_router_class rd with
    | None =>
        let! m := callback_message (dmp_router_callback request) rd in
        emit (EvLog ERROR (LogText (m +:+ " redirected processing to " +:+ redirect_to +:+ ".")))
    | Some _ => ret tt
    end in
  let! _ :=
    if SIGNALS env
    then let! _ := send dmp_signal_redirect_exception
                        (map (fun f => f rd e) (redirect_receivers env)) in
         ret tt
    else ret tt in
  lift (redirect_get_response env redirect_to rd).

(** One pass of [while True]: either the function returns a value, or the
    loop goes round again with the request as the handler left it. *)
Inductive step :=
| Returned (v : value)
| Again (request : Request).

Definition route_iteration (env : Env) (request : Request)
    (kwargs : gmap string value) : M step :=
  catch (let! v := route_try env request kwargs in ret (Returned v))
        (fun e => match e with
                  | InternalRedirectException m f =>
                      Some (let! request' := internal_redirect env request e m f in
                            ret (Again request'))
                  | RedirectException redirect_to =>
                      Some (let! v := external_redirect env request e redirect_to in
                            ret (Returned v))
                  | _ => None
                  end).

(** [route_request(request, **kwargs)], run for at most [fuel] passes of
    the loop; [None] when the loop is still running after them. *)
Fixpoint route_request (env : Env) (fuel : nat) (request : Request)
    (kwargs : gmap string value) : M (option value) :=
  match fuel with
  | O => ret None
  | S fuel' =>
      let! s := route_iteration env request kwargs in
      match s with
      | Returned v => ret (Some v)
      | Again request' => route_request env fuel' request' kwargs
      end
  end.

(** * Specification vocabulary *)

(** The value handed to the converter of [p], the parameter at index [i]:
    [kwargs.pop(p.name, request.urlparams[i])]. *)
Definition picked (env : Env) (request : RequestData) (kwargs : gmap string value)
    (i : nat) (p : ViewParameter) : value :=
  match kwargs !! name p with
  | Some v => v
  | None => urlparams_getitem env (urlparams request) i
  end.

Definition has_own_converter (p : ViewParameter) : bool :=
  match converter p with Some _ => true | None => false end.

Definition converter_for (env : Env) (ctask : ConversionTask) (p : ViewParameter) : converter_fn :=
  match converter p with
  | Some conv => conv
  | None => task_converter env ctask
  end.

(** The keyword arguments left once every parameter name has been popped. *)
Definition unconsumed (kwargs : gmap string value) (params : list ViewParameter)
    : gmap string value :=
  fold_left (fun m (p : ViewParameter) => delete (name p) m) params kwargs.

Definition param_names (params : list ViewParameter) : list string :=
  map (fun p : ViewParameter => name p) params.

(** The converter calls the loop is expected to make, in order. *)
Fixpoint conversion_events (env : Env) (request : RequestData)
    (kwargs : gmap string value) (i : nat) (params : list ViewParameter) : list event :=
  match params with
  | [] => []
  | p :: rest =>
      EvConvert (has_own_converter p) (name p) (picked env request kwargs i p)
        :: conversion_events env request kwargs (S i) rest
  end.

(** The converted values, when every converter returns. *)
Fixpoint converted_values (env : Env) (ctask : ConversionTask) (request : RequestData)
    (kwargs : gmap string value) (i : nat) (params : list ViewParameter)
    : res (list value) :=
  match params with
  | [] => Return []
  | p :: rest =>
      match converter_for env ctask p (picked env request kwargs i p) p ctask with
      | Return v =>
          match converted_values env ctask request kwargs (S i) rest with
          | Return vs => Return (v :: vs)
          | Raise e => Raise e
          end
      | Raise e => Raise e
      end
  end.

Definition is_convert_event (ev : event) : bool :=
  match ev with EvConvert _ _ _ => true | _ => false end.

(** The rule of choice as the specification words it: the positional URL
    value if one is provided, otherwise the same-named keyword argument,
    otherwise the declared default. *)
Definition url_value_first (request : RequestData) (kwargs : gmap string value)
    (i : nat) (p : ViewParameter) : value :=
  match urlparams request !! i with
  | Some s => VStr s
  | None =>
      match kwargs !! name p with
      | Some v => v
      | None => default p
      end
  end.

(** Every converter call of an invocation is on the value that rule names. *)
Definition converts_url_value_first (env : Env) (self : ViewFunctionRouter)
    (request : RequestData) (kwargs : gmap string value) : Prop :=
  forall i (p : ViewParameter) own v,
    parameters self !! i = Some p ->
    EvConvert own (name p) v
      ∈ snd (ViewFunctionRouter.get_response env self request kwargs) ->
    v = url_value_first request kwargs i p.

(** The method names of the instance that are defined on it, in the order
    of [http_method_names]. *)
Definition defined_methods (instance : view_instance) : list string :=
  filter (fun m => is_Some (inst_attrs instance !! m)) (http_method_names instance).

(** [needle] occurs in [s]. *)
Definition mentions (needle s : string) : Prop :=
  exists pre post, s = pre +:+ needle +:+ post.

(** The spec lookup found nothing: [find_spec] returned [None] or raised
    [ValueError]. *)
Definition spec_absent (env : Env) (module_name : string) : Prop :=
  find_spec env module_name = Return None
  \/ exists msg, find_spec env module_name = Raise (ValueError msg).

(** The module cannot be located and the lookup says so by an exception
    other than [ValueError]: [find_spec] imports the parent package first,
    and a parent that is missing or is not a package makes it raise
    [ModuleNotFoundError]. *)
Definition spec_lookup_fails (env : Env) (module_name : string) (e : exn) : Prop :=
  find_spec env module_name = Raise e /\ forall msg, e <> ValueError msg.

(** C5's conclusion: the factory returns a registry-exception router whose
    diagnostic names the view module that was not found and the fallback
    template that could not be loaded. *)
Definition reports_both_failures (env : Env)
    (app_name module_name function_name fallback_template : string) : Prop :=
  exists router request t,
    router_factory env app_name module_name function_name fallback_template
    = (Return (ExceptionRouter router), t)
    /\ mentions ("View module " +:+ module_name +:+ " not found")
         (RegistryExceptionRouter.message router request)
    /\ mentions ("fallback template " +:+ fallback_template +:+ " could not be loaded")
         (RegistryExceptionRouter.message router request).

(** C2 as the specification states it: the factory returns a router,
    whatever it is given. *)
Definition never_raises (env : Env)
    (app_name module_name function_name fallback_template : string) : Prop :=
  exists router,
    fst (router_factory env app_name module_name function_name fallback_template)
    = Return router.

Definition is_ViewDoesNotExist (e : exn) : bool :=
  match e with ViewDoesNotExist _ => true | _ => false end.

(** What reading the signatures of the defined methods, in the order of
    [names], meets first: the exception of the first method whose signature
    cannot be read. *)
Fixpoint first_signature_failure (instance : view_instance) (names : list string)
    : option exn :=
  match names with
  | [] => None
  | n :: rest =>
      match inst_attrs instance !! n with
      | Some f =>
          match fn_signature f with
          | Raise e => Some e
          | Return _ => first_signature_failure instance rest
          end
      | None => first_signature_failure instance rest
      end
  end.

(** [e] is raised by a call the factory makes on these arguments and has no
    handler there: by the template loader, called when no spec was found
    (anything but [TemplateDoesNotExist]); by [import_module], called when
    the spec was found; by the signature of the decorated function; by the
    constructor of the view class; by the signature of one of its methods.
    [ViewDoesNotExist] always has a handler. *)
Definition unhandled_failure (env : Env)
    (app_name module_name function_name fallback_template : string) (e : exn) : Prop :=
  is_ViewDoesNotExist e = false
  /\ ((spec_absent env module_name
       /\ get_template env app_name fallback_template = Raise e
       /\ (forall msg, e <> TemplateDoesNotExist msg))
      \/ (find_spec env module_name = Return (Some tt)
          /\ import_module env module_name = Raise e)
      \/ (exists module,
            find_spec env module_name = Return (Some tt)
            /\ import_module env module_name = Return module
            /\ ((exists f a kw,
                    mod_attrs module !! function_name = Some (PyFunction f)
                    /\ fn_decoration f = Some (a, kw)
                    /\ fn_signature f = Raise e)
                \/ (exists c,
                      mod_attrs module !! function_name = Some (PyViewClass c)
                      /\ (cls_new c = Raise e
                          \/ exists instance,
                               cls_new c = Return instance
                               /\ first_signature_failure instance
                                    (http_method_names instance) = Some e))))).


Definition info_processing (env : Env) (rd : RequestData) : list event :=
  if log_info_enabled env
  then [EvLog INFO (LogProcessing (dmp_router_app rd) (dmp_router_page rd)
                      (dmp_router_module rd) (dmp_router_function rd) (urlparams rd))]
  else [].

Definition info_calling (env : Env) (m : string) : list event :=
  if log_info_enabled env then [EvLog INFO (LogText ("calling " +:+ m))] else [].




(** * Sample collaborators, views and requests *)

(** The case mappings of the sample collaborators: on a string of ASCII
    characters they are what [str.lower] and [str.upper] give; other bytes
    are left as they are. *)
Definition ascii_lower_char (c : Ascii.ascii) : Ascii.ascii :=
  let n := Ascii.nat_of_ascii c in
  if (65 <=? n)%nat && (n <=? 90)%nat then Ascii.ascii_of_nat (n + 32) else c.

Definition ascii_upper_char (c : Ascii.ascii) : Ascii.ascii :=
  let n := Ascii.nat_of_ascii c in
  if (97 <=? n)%nat && (n <=? 122)%nat then Ascii.ascii_of_nat (n - 32) else c.

Fixpoint ascii_lower (s : string) : string :=
  match s with
  | EmptyString => EmptyString
  | String c s' => String (ascii_lower_char c) (ascii_lower s')
  end.

Fixpoint ascii_upper (s : string) : string :=
  match s with
  | EmptyString => EmptyString
  | String c s' => String (ascii_upper_char c) (ascii_upper s')
  end.

Definition identity_converter : converter_fn := fun v _ _ => Return v.

(** Collaborators with signals and info logging off, no template,
    converters that hand the value back and the empty string for a missing
    URL segment; what can be found and imported is left open. *)
Definition quiet_env (spec : string -> res (option unit))
    (import : string -> res PyModule) : Env :=
  {| SIGNALS := false;
     log_info_enabled := false;
     pre_receivers := [];
     post_receivers := [];
     internal_redirect_receivers := [];
     redirect_receivers := [];
     find_spec := spec;
     import_module := import;
     get_template := fun _ t => Raise (TemplateDoesNotExist t);
     redirect_get_response := fun to _ => Return (VResponse (HttpResponse 302 to));
     task_converter := fun _ => identity_converter;
     urlparam_placeholder := VStr "";
     str_lower := ascii_lower;
     str_upper := ascii_upper |}.

(** Nothing can be found or imported. *)
Definition bare_env : Env :=
  quiet_env (fun _ => Return None)
            (fun m => Raise (ImportError ("No module named '" +:+ m +:+ "'"))).

(** No package [nopkg]: looking for a module under it, [find_spec] raises
    [ModuleNotFoundError], a subclass of [ImportError]; no template either. *)
Definition no_package_env : Env :=
  quiet_env (fun _ => Raise (ImportError "No module named 'nopkg'"))
            (fun m => Raise (ImportError ("No module named '" +:+ m +:+ "'"))).

Definition ok_response : value := VResponse (HttpResponse 200 "ok").

(** [@view_function def show(request, a='d'): return HttpResponse('ok')] *)
Definition show_view : function_obj :=
  {| fn_qualname := "show";
     fn_signature := Return [ {| p_name := "request"; p_default := VParamEmpty |};
                              {| p_name := "a"; p_default := VStr "d" |} ];
     fn_annotations := ∅;
     fn_decoration := Some ([], ∅);
     fn_view_parameter := fun vp => vp;
     fn_call := fun _ _ => Return ok_response |}.

Definition views_module : PyModule :=
  {| mod_name := "homepage.views.index";
     mod_attrs := {[ "show" := PyFunction show_view ]} |}.

Definition param_a : ViewParameter :=
  {| vp_data := {| name := "a"; type := VParamEmpty; default := VStr "d" |};
     converter := None |}.

Definition show_router : ViewFunctionRouter :=
  {| vfr_module := views_module; function := show_view;
     decorator_kwargs := Some ∅; parameters := [param_a] |}.

Definition sample_request (params : list string) : RequestData :=
  {| method := "GET"; path := "/homepage/index.show/";
     urlparams := params;
     dmp_router_app := "homepage"; dmp_router_page := "index";
     dmp_router_module := "homepage.views.index"; dmp_router_function := "show";
     dmp_router_class := None |}.

(** [class Account(View)] with [get(self, request)],
    [post(self, request, a='d')] and
    [http_method_names = ['get', 'post', 'put', 'delete']]. *)
Definition account_get : function_obj :=
  {| fn_qualname := "Account.get";
     fn_signature := Return [ {| p_name := "request"; p_default := VParamEmpty |} ];
     fn_annotations := ∅;
     fn_decoration := None;
     fn_view_parameter := fun vp => vp;
     fn_call := fun _ _ => Return ok_response |}.

Definition account_post : function_obj :=
  {| fn_qualname := "Account.post";
     fn_signature := Return [ {| p_name := "request"; p_default := VParamEmpty |};
                              {| p_name := "a"; p_default := VStr "d" |} ];
     fn_annotations := ∅;
     fn_decoration := None;
     fn_view_parameter := fun vp => vp;
     fn_call := fun _ _ => Return (VResponse (HttpResponse 200 "posted")) |}.

Definition account_instance : view_instance :=
  {| http_method_names := ["get"; "post"; "put"; "delete"];
     inst_attrs := {[ "get" := account_get; "post" := account_post ]} |}.

Definition account_get_router : ViewFunctionRouter :=
  {| vfr_module := views_module; function := account_get;
     decorator_kwargs := None; parameters := [] |}.

Definition account_post_router : ViewFunctionRouter :=
  {| vfr_module := views_module; function := account_post;
     decorator_kwargs := None; parameters := [param_a] |}.

Definition account_router : ClassBasedRouter ViewFunctionRouter :=
  {| endpoints := [("get", account_get_router); ("post", account_post_router)] |}.

Definition request_with_method (m : string) : RequestData :=
  {| method := m; path := "/account/";
     urlparams := [];
     dmp_router_app := "homepage"; dmp_router_page := "account";
     dmp_router_module := "homepage.views.account"; dmp_router_function := "Account";
     dmp_router_class := Some "Account" |}.

(** [django.views.generic.View] as the classes that reach
    [ClassBasedRouter] inherit it: the method names it lists, and the
    [options(self, request, *args, **kwargs)] handler it defines itself. *)
Definition View_http_method_names : list string :=
  ["get"; "post"; "put"; "patch"; "delete"; "head"; "options"; "trace"].

Definition View_options : function_obj :=
  {| fn_qualname := "View.options";
     fn_signature := Return [ {| p_name := "request"; p_default := VParamEmpty |};
                              {| p_name := "args"; p_default := VParamEmpty |};
                              {| p_name := "kwargs"; p_default := VParamEmpty |} ];
     fn_annotations := ∅;
     fn_decoration := None;
     fn_view_parameter := fun vp => vp;
     fn_call := fun _ _ => Return (VResponse (HttpResponse 200 "")) |}.

(** The instance of a [View] subclass whose body writes the methods [own]
    and nothing else. *)
Definition view_subclass_instance (own : gmap string function_obj) : view_instance :=
  {| http_method_names := View_http_method_names;
     inst_attrs := own ∪ {[ "options" := View_options ]} |}.

(** C3 as the specification states it, for the router built from
    [instance]: DELETE is refused with the list GET, POST. *)
Definition refuses_delete_with_get_post (env : Env) (module : PyModule)
    (instance : view_instance) : Prop :=
  exists self t,
    class_init module instance None = (Return self, t)
    /\ fst (class_get_response env self (request_with_method "DELETE") ∅)
       = Return (VResponse (HttpResponseNotAllowed ["GET"; "POST"])).

(** A module that is found but fails while being imported. *)
Definition broken_import_env : Env :=
  quiet_env (fun _ => Return (Some tt))
            (fun _ => Raise (OtherException "SyntaxError" "invalid syntax")).




(** [@view_function def forward(request): raise InternalRedirectException(...)] *)
Definition forward_view : function_obj :=
  {| fn_qualname := "forward";
     fn_signature := Return [ {| p_name := "request"; p_default := VParamEmpty |} ];
     fn_annotations := ∅;
     fn_decoration := Some ([], ∅);
     fn_view_parameter := fun vp => vp;
     fn_call := fun _ _ =>
                  Raise (InternalRedirectException "homepage.views.other" "show") |}.

Definition forward_router : ViewFunctionRouter :=
  {| vfr_module := views_module; function := forward_view;
     decorator_kwargs := Some ∅; parameters := [] |}.

Definition forward_request : Request :=
  {| data := sample_request [];
     dmp_router_callback := CbRouter (FunctionRouter forward_router) |}.

(** A module holding the view [show] and the undecorated function [plain]. *)
Definition other_module : PyModule :=
  {| mod_name := "homepage.views.other";
     mod_attrs := {[ "show" := PyFunction show_view;
                     "plain" := PyFunction account_get ]} |}.

(** Collaborators for which that module, and no other, can be imported. *)
Definition other_env : Env :=
  quiet_env (fun _ => Return (Some tt))
            (fun m => if String.eqb m "homepage.views.other"
                      then Return other_module
                      else Raise (ImportError ("No module named '" +:+ m +:+ "'"))).

(** Signals on, with one post-signal receiver that answers with a string. *)
Definition spoiling_env : Env :=
  {| SIGNALS := true;
     log_info_enabled := true;
     pre_receivers := [fun _ => Return VNone];
     post_receivers := [fun _ _ => Return VNone; fun _ _ => Return (VStr "oops")];
     internal_redirect_receivers := [];
     redirect_receivers := [];
     find_spec := fun _ => Return None;
     import_module := fun m => Raise (ImportError ("No module named '" +:+ m +:+ "'"));
     get_template := fun _ t => Raise (TemplateDoesNotExist t);
     redirect_get_response := fun to _ => Return (VResponse (HttpResponse 302 to));
     task_converter := fun _ => identity_converter;
     urlparam_placeholder := VStr "";
     str_lower := ascii_lower;
     str_upper := ascii_upper |}.

Definition show_request : Request :=
  {| data := sample_request ["x"];
     dmp_router_callback := CbRouter (FunctionRouter show_router) |}.

(** * Further vocabulary *)

Definition is_send_event (ev : event) : bool :=
  match ev with EvSend _ => true | _ => false end.

Definition is_call_event (ev : event) : bool :=
  match ev with EvCall _ _ _ | EvConvert _ _ _ => true | _ => false end.

(** A callback that passes the two checks at the top of the loop: it is
    set, and it is neither a [ViewDoesNotExist] instance nor a
    registry-exception router. *)
Definition passes_checks (cb : callback) : bool :=
  match cb with
  | CbNone | CbObject PyNone | CbViewDoesNotExist _ => false
  | CbRouter (ExceptionRouter _) => false
  | _ => true
  end.

(** What the caller of [route_request] receives when the pass ends in an
    external redirect: the result of [e.get_response(request)]. *)
Definition redirect_result (env : Env) (redirect_to : string) (rd : RequestData)
    : res (option value) :=
  match redirect_get_response env redirect_to rd with
  | Return v => Return (Some v)
  | Raise e => Raise e
  end.

Definition redirect_log (request : Request) (m redirect_to : string) : list event :=
  match dmp_router_class (data request) with
  | None => [EvLog ERROR (LogText (m +:+ " redirected processing to "
                                   +:+ redirect_to +:+ "."))]
  | Some _ => []
  end.

Definition redirect_send (env : Env) : list event :=
  if SIGNALS env then [EvSend dmp_signal_redirect_exception] else [].

(** A converter that refuses every value with the not-found signal. *)
Definition refusing_converter : converter_fn := fun _ _ _ => Raise Http404.

Definition param_b : ViewParameter :=
  {| vp_data := {| name := "b"; type := VType "int"; default := VParamEmpty |};
     converter := Some refusing_converter |}.

Definition param_c : ViewParameter :=
  {| vp_data := {| name := "c"; type := VParamEmpty; default := VStr "" |};
     converter := None |}.

(** A router for [show] with three parameters, the second of which has the
    refusing converter. *)
Definition refusing_router : ViewFunctionRouter :=
  {| vfr_module := views_module; function := show_view;
     decorator_kwargs := Some ∅; parameters := [param_a; param_b; param_c] |}.

(** The events a router may produce while answering a request. *)
Definition is_view_event (ev : event) : bool :=
  match ev with
  | EvConvert _ _ _ | EvCall _ _ _ | EvLog _ _ => true
  | EvSend _ | EvImport _ => false
  end.

(** The result of the post-signal loop, read from the receivers' results. *)
Definition last_replacement (response : value) (rets : list value) : value :=
  match last (filter (fun v => is_None v = false) rets) with
  | Some r => r
  | None => response
  end.

Definition closed_response : value := VResponse (HttpResponse 403 "closed").

(** Collaborators with signals on and the given pre- and post-signal
    receivers; nothing can be found or imported. *)
Definition signals_env (pre : list (RequestData -> res value))
    (post : list (RequestData -> value -> res value)) : Env :=
  {| SIGNALS := true;
     log_info_enabled := false;
     pre_receivers := pre;
     post_receivers := post;
     internal_redirect_receivers := [];
     redirect_receivers := [fun _ _ => Return VNone];
     find_spec := fun _ => Return None;
     import_module := fun m => Raise (ImportError ("No module named '" +:+ m +:+ "'"));
     get_template := fun _ t => Raise (TemplateDoesNotExist t);
     redirect_get_response := fun to _ => Return (VResponse (HttpResponse 302 to));
     task_converter := fun _ => identity_converter;
     urlparam_placeholder := VStr "";
     str_lower := ascii_lower;
     str_upper := ascii_upper |}.

(** The second pre-signal receiver answers with a response. *)
Definition guarded_env : Env :=
  signals_env [fun _ => Return VNone;
               fun _ => Return closed_response;
               fun _ => Return ok_response] [].

(** The post-signal receivers replace the response twice. *)
Definition replacing_env : Env :=
  signals_env [fun _ => Return VNone]
              [fun _ _ => Return (VStr "first");
               fun _ _ => Return closed_response;
               fun _ _ => Return VNone].

(** [@view_function def leave(request): raise RedirectException('/login/')] *)
Definition leave_view : function_obj :=
  {| fn_qualname := "leave";
     fn_signature := Return [ {| p_name := "request"; p_default := VParamEmpty |} ];
     fn_annotations := ∅;
     fn_decoration := Some ([], ∅);
     fn_view_parameter := fun vp => vp;
     fn_call := fun _ _ => Raise (RedirectException "/login/") |}.

Definition leave_router : ViewFunctionRouter :=
  {| vfr_module := views_module; function := leave_view;
     decorator_kwargs := Some ∅; parameters := [] |}.

Definition leave_request : Request :=
  {| data := set_target (sample_request []) "homepage.views.index" "leave";
     dmp_router_callback := CbRouter (FunctionRouter leave_router) |}.

(** The imports the factory is expected to make: one, of the module, when
    the spec lookup found it. *)
Definition factory_imports (env : Env) (module_name : string) : list event :=
  match find_spec env module_name with
  | Return (Some _) => [EvImport module_name]
  | _ => []
  end.

(** What the kind of the router the factory returned says about what the
    factory found. *)
Definition router_kind_explained (env : Env)
    (app_label module_name function_name fallback_template : string) (router : Router) : Prop :=
  match router with
  | TemplateRouter r =>
      spec_absent env module_name
      /\ r = {| app_name := app_label; template_name := fallback_template |}
      /\ exists tpl, get_template env app_label fallback_template = Return tpl
  | FunctionRouter r =>
      exists module f a kw,
        import_module env module_name = Return module
        /\ mod_attrs module !! function_name = Some (PyFunction f)
        /\ fn_decoration f = Some (a, kw)
        /\ ViewFunctionRouter.init module f (Some kw) = (Return r, [])
  | ClassRouter r =>
      exists module c instance,
        import_module env module_name = Return module
        /\ mod_attrs module !! function_name = Some (PyViewClass c)
        /\ cls_new c = Return instance
        /\ class_init module instance (snd <$> cls_decoration c) = (Return r, [])
  | ExceptionRouter x => exists msg, exc x = ViewDoesNotExist msg
  end.

(** [class Account(View)], not decorated. *)
Definition account_class : view_class :=
  {| cls_qualname := "Account";
     cls_decoration := None;
     cls_new := Return account_instance |}.

Definition account_module : PyModule :=
  {| mod_name := "homepage.views.account";
     mod_attrs := {[ "Account" := PyViewClass account_class ]} |}.

Definition account_env : Env :=
  quiet_env (fun _ => Return (Some tt)) (fun _ => Return account_module).

(** Collaborators for which no module spec is found but every template
    loads, rendering to a fixed page. *)
Definition page_template : Template :=
  {| render_to_response := fun _ _ => Return (VResponse (HttpResponse 200 "page")) |}.

Definition template_env : Env :=
  {| SIGNALS := false;
     log_info_enabled := false;
     pre_receivers := [];
     post_receivers := [];
     internal_redirect_receivers := [];
     redirect_receivers := [];
     find_spec := fun _ => Raise (ValueError "empty module name");
     import_module := fun m => Raise (ImportError ("No module named '" +:+ m +:+ "'"));
     get_template := fun _ _ => Return page_template;
     redirect_get_response := fun to _ => Return (VResponse (HttpResponse 302 to));
     task_converter := fun _ => identity_converter;
     urlparam_placeholder := VStr "";
     str_lower := ascii_lower;
     str_upper := ascii_upper |}.

(** The first pre-signal receiver answers with a response, the second
    raises. *)
Definition failing_receiver_env : Env :=
  signals_env [fun _ => Return closed_response;
               fun _ => Raise (OtherException "RuntimeError" "receiver failed")] [].

(** * Properties *)

(** ** The effect monad *)

Lemma bind_Return {A B} (a : A) (t : list event) (k : A -> M B) :
  bind (Return a, t) k = (fst (k a), t ++ snd (k a)).
Proof. unfold bind. destruct (k a); reflexivity. Qed.

Lemma bind_Raise {A B} (e : exn) (t : list event) (k : A -> M B) :
  bind (Raise e, t) k = (Raise e, t).
Proof. reflexivity. Qed.

Lemma bind_ret {A B} (a : A) (k : A -> M B) : bind (ret a) k = k a.
Proof. unfold bind, ret. destruct (k a); reflexivity. Qed.

Lemma bind_emit {B} (ev : event) (k : unit -> M B) :
  bind (emit ev) k = (fst (k tt), ev :: snd (k tt)).
Proof. unfold bind, emit. destruct (k tt); reflexivity. Qed.

Lemma bind_Return_inv {A B} (c : M A) (k : A -> M B) b t :
  bind c k = (Return b, t) ->
  exists a t1 t2, c = (Return a, t1) /\ k a = (Return b, t2) /\ t = t1 ++ t2.
Proof.
  destruct c as [[a|e] t1]; [|discriminate].
  rewrite bind_Return. destruct (k a) as [r t2] eqn:Hk. cbn [fst snd].
  intros [= -> <-]. by exists a, t1, t2.
Qed.

Lemma bind_fst_Raise {A B} (c : M A) (k : A -> M B) e :
  fst (bind c k) = Raise e ->
  fst c = Raise e \/ exists a, fst c = Return a /\ fst (k a) = Raise e.
Proof.
  destruct c as [[a|e'] t]; [|intros [= ->]; left; reflexivity].
  rewrite bind_Return. cbn [fst]. intros Hk. right. exists a. split; [reflexivity | exact Hk].
Qed.

(** ** ViewFunctionRouter.get_response: how an argument is chosen *)

Lemma convert_one_eq env ctask request i (p : ViewParameter) kwargs :
  ViewFunctionRouter.convert_one env ctask request i p kwargs =
  (match converter_for env ctask p (picked env request kwargs i p) p ctask with
   | Return v => Return (v, delete (name p) kwargs)
   | Raise e => Raise e
   end,
   [EvConvert (has_own_converter p) (name p) (picked env request kwargs i p)]).
Proof.
  unfold ViewFunctionRouter.convert_one, converter_for, has_own_converter, picked,
    option.default.
  destruct (converter p) as [conv|]; rewrite bind_emit; unfold lift, bind, ret; simpl.
  - destruct (conv _ _ _); reflexivity.
  - destruct (task_converter _ _ _ _ _); reflexivity.
Qed.

Lemma lookup_unconsumed kwargs params k :
  unconsumed kwargs params !! k =
  if bool_decide (k ∈ param_names params) then None else kwargs !! k.
Proof.
  revert kwargs. induction params as [|p rest IH]; intros kwargs.
  - case_bool_decide as Hin; [by apply elem_of_nil in Hin | reflexivity].
  - change (unconsumed kwargs (p :: rest)) with (unconsumed (delete (name p) kwargs) rest).
    change (param_names (p :: rest)) with (name p :: param_names rest).
    rewrite IH, lookup_delete.
    destruct (decide (name p = k)) as [<-|Hne].
    + rewrite (bool_decide_eq_true_2 (name p ∈ name p :: param_names rest));
        [|by left].
      by destruct (bool_decide (name p ∈ param_names rest)).
    + destruct (decide (k ∈ param_names rest)) as [Hin|Hnin].
      * rewrite !bool_decide_eq_true_2; [reflexivity | by right | exact Hin].
      * rewrite !bool_decide_eq_false_2; [reflexivity | | exact Hnin].
        intros [Hk|Hk]%elem_of_cons; [by apply Hne | by apply Hnin].
Qed.

(** The loop touches the outside through converters only, and what it
    hands on as keyword arguments is [unconsumed]. *)
Lemma convert_from_inv env ctask request params :
  forall i args kwargs,
    let run := ViewFunctionRouter.convert_from env ctask request i params args kwargs in
    Forall (fun ev => is_convert_event ev = true) (snd run) /\
    (forall args' kwargs', fst run = Return (args', kwargs') ->
                           kwargs' = unconsumed kwargs params).
Proof.
  induction params as [|p rest IH]; intros i args kwargs; simpl.
  - split; [constructor|]. intros ? ? [= _ <-]. reflexivity.
  - rewrite convert_one_eq.
    destruct (converter_for env ctask p _ p ctask) as [v|e].
    + rewrite bind_Return. simpl.
      destruct (IH (S i) (args ++ [v]) (delete (name p) kwargs)) as [Ht Hk].
      split.
      * constructor; [reflexivity | exact Ht].
      * intros args' kwargs' Hrun. apply Hk in Hrun. exact Hrun.
    + simpl. split; [repeat constructor | discriminate].
Qed.

Lemma picked_delete_ne env request kwargs i (p q : ViewParameter) :
  name p <> name q ->
  picked env request (delete (name p) kwargs) i q = picked env request kwargs i q.
Proof. intros Hne. unfold picked. by rewrite lookup_delete_ne. Qed.

Lemma conversion_events_delete env request kwargs (p : ViewParameter) rest :
  name p ∉ param_names rest ->
  forall i, conversion_events env request (delete (name p) kwargs) i rest
            = conversion_events env request kwargs i rest.
Proof.
  induction rest as [|q rest IH]; intros Hnin i; simpl; [reflexivity|].
  apply not_elem_of_cons in Hnin as [Hne Hnin].
  rewrite picked_delete_ne by exact Hne. by rewrite IH.
Qed.

Lemma converted_values_delete env ctask request kwargs (p : ViewParameter) rest :
  name p ∉ param_names rest ->
  forall i, converted_values env ctask request (delete (name p) kwargs) i rest
            = converted_values env ctask request kwargs i rest.
Proof.
  induction rest as [|q rest IH]; intros Hnin i; simpl; [reflexivity|].
  apply not_elem_of_cons in Hnin as [Hne Hnin].
  rewrite picked_delete_ne by exact Hne. by rewrite IH.
Qed.

(** With distinct parameter names, the loop is the pure conversion of the
    values picked from the keyword arguments as they were on entry. *)
Lemma convert_from_run env ctask request params :
  NoDup (param_names params) ->
  forall i args kwargs vs,
    converted_values env ctask request kwargs i params = Return vs ->
    ViewFunctionRouter.convert_from env ctask request i params args kwargs =
    (Return (args ++ vs, unconsumed kwargs params),
     conversion_events env request kwargs i params).
Proof.
  induction params as [|p rest IH]; intros Hnd i args kwargs vs Hvs; simpl in *.
  - injection Hvs as <-. by rewrite app_nil_r.
  - apply NoDup_cons in Hnd as [Hnin Hnd].
    rewrite convert_one_eq.
    destruct (converter_for env ctask p _ p ctask) as [v|e]; [|discriminate].
    destruct (converted_values env ctask request kwargs (S i) rest) as [vs'|e] eqn:Hrest;
      [|discriminate].
    injection Hvs as <-.
    rewrite bind_Return. simpl.
    rewrite (IH Hnd (S i) (args ++ [v]) (delete (name p) kwargs) vs').
    + simpl. rewrite <- app_assoc. simpl.
      by rewrite conversion_events_delete.
    + by rewrite converted_values_delete.
Qed.

Example show_router_built :
  ViewFunctionRouter.init views_module show_view (Some ∅) = (Return show_router, []).
Proof. reflexivity. Qed.

Example show_with_url_value :
  ViewFunctionRouter.get_response bare_env show_router (sample_request ["x"]) ∅ =
  (Return ok_response,
   [EvConvert false "a" (VStr "x");
    EvCall "show" [VRequest (sample_request ["x"]); VStr "x"] ∅]).
Proof. reflexivity. Qed.

(** ** C1: the arguments of the handler call *)

(** C1, as stated, fails: with the URL value [x] supplied for parameter [a]
    and a keyword argument [a = y], the converter and the view receive [y]. *)
Lemma keyword_argument_beats_url_value :
  ~ converts_url_value_first bare_env show_router (sample_request ["x"])
      {[ "a" := VStr "y" ]}.
Proof.
  intros H. specialize (H 0 param_a false (VStr "y") eq_refl).
  assert (VStr "y" = VStr "x") as Habs; [|discriminate Habs].
  apply H. vm_compute. left.
Qed.

(** C1 (amended): when the length check passes and every converter
    returns, each declared parameter (their names being pairwise distinct,
    as in any signature), in order, gets the same-named keyword argument if
    there is one and the URL value at its index otherwise; that value goes
    through exactly one converter, the parameter's own if set and the task's
    otherwise; the view is called with the request followed by the converted
    values. *)
Theorem get_response_arguments env self request kwargs vs :
  NoDup (param_names (parameters self)) ->
  length (urlparams request) <= length (parameters self) ->
  converted_values env (ViewFunctionRouter.make_task self request) request kwargs 0
    (parameters self) = Return vs ->
  ViewFunctionRouter.get_response env self request kwargs =
  (fn_call (function self) (VRequest request :: vs) (unconsumed kwargs (parameters self)),
   conversion_events env request kwargs 0 (parameters self)
     ++ [EvCall (fn_qualname (function self)) (VRequest request :: vs)
                (unconsumed kwargs (parameters self))]).
Proof.
  intros Hnd Hlen Hvs. unfold ViewFunctionRouter.get_response, check_length.
  destruct (Nat.ltb_spec (length (parameters self)) (length (urlparams request)));
    [lia|].
  rewrite bind_ret.
  rewrite (convert_from_run _ _ _ _ Hnd 0 [VRequest request] kwargs vs Hvs).
  rewrite bind_Return. cbn [fst snd]. rewrite bind_emit. cbn [fst snd lift].
  reflexivity.
Qed.

Lemma get_response_arguments_witness :
  ViewFunctionRouter.get_response bare_env show_router (sample_request [])
    {[ "a" := VStr "y"; "page" := VInt 2 ]} =
  (Return ok_response,
   [EvConvert false "a" (VStr "y");
    EvCall "show" [VRequest (sample_request []); VStr "y"]
           (unconsumed {[ "a" := VStr "y"; "page" := VInt 2 ]} [param_a])]).
Proof.
  refine (eq_trans
            (get_response_arguments bare_env show_router (sample_request [])
               {[ "a" := VStr "y"; "page" := VInt 2 ]} [VStr "y"] _ _ _) _).
  - vm_compute. repeat constructor. apply not_elem_of_nil.
  - simpl. lia.
  - reflexivity.
  - reflexivity.
Defined.

(** ** C9: too many URL values *)

(** C9: more positional URL values than declared parameters end the
    invocation at the length check with the not-found signal; no converter
    and no view has been called. *)
Theorem too_many_urlparams_not_found env self request kwargs :
  length (parameters self) < length (urlparams request) ->
  ViewFunctionRouter.get_response env self request kwargs = (Raise Http404, []).
Proof.
  intros Hlen. unfold ViewFunctionRouter.get_response, check_length.
  destruct (Nat.ltb_spec (length (parameters self)) (length (urlparams request)));
    [reflexivity | lia].
Qed.

Lemma too_many_urlparams_not_found_witness :
  ViewFunctionRouter.get_response bare_env show_router (sample_request ["x"; "z"]) ∅
  = (Raise Http404, []).
Proof.
  apply (too_many_urlparams_not_found bare_env show_router (sample_request ["x"; "z"]) ∅).
  simpl. lia.
Defined.

(** ** C10: no name is passed twice *)

(** C10: in every invocation, the keyword arguments of the view call are
    the caller's without the entries named like a declared parameter: such
    an entry is never passed by keyword, every other entry is passed
    unchanged. *)
Theorem view_call_kwargs env self request kwargs qualname args kw :
  EvCall qualname args kw
    ∈ snd (ViewFunctionRouter.get_response env self request kwargs) ->
  forall k,
    kw !! k = if bool_decide (k ∈ param_names (parameters self)) then None
              else kwargs !! k.
Proof.
  unfold ViewFunctionRouter.get_response, check_length.
  destruct (length (parameters self) <? length (urlparams request)).
  { unfold throw. rewrite bind_Raise. simpl. intros Hin. by apply elem_of_nil in Hin. }
  rewrite bind_ret.
  pose proof (convert_from_inv env (ViewFunctionRouter.make_task self request) request
                (parameters self) 0 [VRequest request] kwargs) as [Ht Hk].
  destruct (ViewFunctionRouter.convert_from _ _ _ _ _ _ _) as [[[args' kw']|e] t];
    simpl in Ht, Hk.
  - rewrite bind_Return. cbn [fst snd]. rewrite bind_emit. cbn [fst snd lift].
    rewrite (Hk args' kw' eq_refl).
    intros Hin k. apply elem_of_app in Hin as [Hin|Hin].
    + rewrite Forall_forall in Ht. apply Ht in Hin. discriminate Hin.
    + apply list_elem_of_singleton in Hin. injection Hin as _ _ ->.
      apply lookup_unconsumed.
  - rewrite bind_Raise. simpl. intros Hin.
    rewrite Forall_forall in Ht. apply Ht in Hin. discriminate Hin.
Qed.

Lemma view_call_kwargs_witness :
  unconsumed {[ "a" := VStr "y"; "page" := VInt 2 ]} [param_a] !! "a" = None
  /\ unconsumed {[ "a" := VStr "y"; "page" := VInt 2 ]} [param_a] !! "page"
     = Some (VInt 2).
Proof.
  assert (EvCall "show" [VRequest (sample_request []); VStr "y"]
            (unconsumed {[ "a" := VStr "y"; "page" := VInt 2 ]} [param_a])
          ∈ snd (ViewFunctionRouter.get_response bare_env show_router (sample_request [])
                   {[ "a" := VStr "y"; "page" := VInt 2 ]})) as Hcall.
  { vm_compute. right. left. }
  split.
  - exact (view_call_kwargs bare_env show_router (sample_request [])
             {[ "a" := VStr "y"; "page" := VInt 2 ]} "show"
             [VRequest (sample_request []); VStr "y"] _ Hcall "a").
  - exact (view_call_kwargs bare_env show_router (sample_request [])
             {[ "a" := VStr "y"; "page" := VInt 2 ]} "show"
             [VRequest (sample_request []); VStr "y"] _ Hcall "page").
Defined.

(** ** C4: RegistryExceptionRouter.get_response *)

Example HttpResponseNotFound_unbound : global_bound "HttpResponseNotFound" = false.
Proof. reflexivity. Qed.

(** C4 (what the code does): [get_response] of a registry-exception router
    reaches the name [HttpResponseNotFound], which [router.py] never
    imports, so for every request and every keyword arguments the call
    raises [NameError] instead of answering with the not-found response;
    no view has been called. *)
Theorem registry_exception_get_response_raises self request kwargs :
  RegistryExceptionRouter.get_response self request kwargs
  = (Raise (NameError "HttpResponseNotFound"), []).
Proof. reflexivity. Qed.

(** ** C3: a class with [get] and [post] *)

Lemma collect_defined {Endpoint : Type}
    (new_endpoint : PyModule -> function_obj -> option (gmap string value) -> M Endpoint)
    module instance dk names :
  forall eps,
    ClassBasedRouter.collect new_endpoint module instance dk names eps =
    ClassBasedRouter.collect new_endpoint module instance dk
      (filter (fun m => is_Some (inst_attrs instance !! m)) names) eps.
Proof.
  induction names as [|n names IH]; intros eps; [reflexivity|].
  rewrite filter_cons. destruct (decide (is_Some (inst_attrs instance !! n))) as [[fn Hfn]|Hno].
  - cbn [ClassBasedRouter.collect]. rewrite Hfn.
    destruct (new_endpoint module fn dk) as [[ep|e] t]; [|reflexivity].
    rewrite !bind_Return. by rewrite IH.
  - cbn [ClassBasedRouter.collect].
    destruct (inst_attrs instance !! n) as [fn|] eqn:Hfn; [|apply IH].
    exfalso. apply Hno. by exists fn.
Qed.

(** C3, as stated, fails: a [View] subclass that writes only [get] and
    [post] still has the [options] handler of [View], and [options] is one
    of [http_method_names]; the router built from its instance has three
    endpoints and the refusal of DELETE lists GET, POST, OPTIONS. *)
Lemma inherited_options_is_listed :
  ~ refuses_delete_with_get_post bare_env views_module
      (view_subclass_instance {[ "get" := account_get; "post" := account_post ]}).
Proof.
  intros (self & t & Hinit & Hresp).
  vm_compute in Hinit. injection Hinit as <- _.
  vm_compute in Hresp. discriminate Hresp.
Qed.

Example delete_on_view_subclass :
  exists self,
    class_init views_module
      (view_subclass_instance {[ "get" := account_get; "post" := account_post ]}) None
    = (Return self, [])
    /\ class_get_response bare_env self (request_with_method "DELETE") ∅
       = (Return (VResponse (HttpResponseNotAllowed ["GET"; "POST"; "OPTIONS"])),
          [EvLog WARNING (LogText "Method Not Allowed (DELETE): /account/")]).
Proof. eexists. split; reflexivity. Qed.

(** An instance on which, of its HTTP method names, exactly [get] and
    [post] are attributes (inherited ones included; so the class has taken
    [options] out of [http_method_names]): the class-based router holds the
    two endpoints built from them, and a DELETE request is answered with the
    405 response whose allowed methods are GET, POST. *)
Lemma class_router_two_endpoints {Endpoint : Type}
    (new_endpoint : PyModule -> function_obj -> option (gmap string value) -> M Endpoint)
    (endpoint_get_response : Endpoint -> RequestData -> gmap string value -> M value)
    (not_allowed_level : level) (lower upper : string -> string)
    module instance dk get_method post_method
    ep_get ep_post t_get t_post request kwargs :
  defined_methods instance = ["get"; "post"] ->
  inst_attrs instance !! "get" = Some get_method ->
  inst_attrs instance !! "post" = Some post_method ->
  new_endpoint module get_method dk = (Return ep_get, t_get) ->
  new_endpoint module post_method dk = (Return ep_post, t_post) ->
  lower "GET" = "get" ->
  lower "DELETE" = "delete" ->
  upper "get" = "GET" ->
  upper "post" = "POST" ->
  let self := {| endpoints := [("get", ep_get); ("post", ep_post)] |} in
  ClassBasedRouter.init new_endpoint module instance dk = (Return self, t_get ++ t_post)
  /\ (method request = "GET" ->
      ClassBasedRouter.get_response endpoint_get_response not_allowed_level lower upper
        self request kwargs
      = endpoint_get_response ep_get request kwargs)
  /\ (method request = "DELETE" ->
      ClassBasedRouter.get_response endpoint_get_response not_allowed_level lower upper
        self request kwargs
      = (Return (VResponse (HttpResponseNotAllowed ["GET"; "POST"])),
         [EvLog not_allowed_level
            (LogText ("Method Not Allowed (DELETE): " +:+ path request))])
      /\ status_code (HttpResponseNotAllowed ["GET"; "POST"]) = 405%Z).
Proof.
  intros Hdef Hget Hpost Hnew_get Hnew_post Hl_get Hl_delete Hu_get Hu_post self.
  split; [|split].
  - unfold ClassBasedRouter.init. rewrite collect_defined.
    fold (defined_methods instance). rewrite Hdef.
    cbn [ClassBasedRouter.collect]. rewrite Hget, Hnew_get, bind_Return.
    rewrite Hpost, Hnew_post, bind_Return. cbn.
    by rewrite !app_nil_r.
  - intros Hm. unfold ClassBasedRouter.get_response. rewrite Hm, Hl_get. reflexivity.
  - intros Hm. unfold ClassBasedRouter.get_response. rewrite Hm, Hl_delete.
    cbn. rewrite Hu_get, Hu_post. split; reflexivity.
Qed.

(** C3 (amended): for the instance of a [View] subclass that writes exactly
    the HTTP methods [get] and [post] and keeps the method names of [View],
    the class-based router holds three endpoints, built from [get], [post]
    and the [options] handler inherited from [View]; a GET request is handed
    to the endpoint of [get], and a DELETE request is answered, after one
    log call, with the 405 response whose allowed methods are exactly GET,
    POST, OPTIONS.  The case mappings enter through what they give on these
    names. *)
Theorem class_router_get_post {Endpoint : Type}
    (new_endpoint : PyModule -> function_obj -> option (gmap string value) -> M Endpoint)
    (endpoint_get_response : Endpoint -> RequestData -> gmap string value -> M value)
    (not_allowed_level : level) (lower upper : string -> string)
    module (own : gmap string function_obj) dk get_method post_method
    ep_get ep_post ep_options t_get t_post t_options request kwargs :
  own !! "get" = Some get_method ->
  own !! "post" = Some post_method ->
  (forall n, n ∈ ["put"; "patch"; "delete"; "head"; "options"; "trace"] ->
             own !! n = None) ->
  new_endpoint module get_method dk = (Return ep_get, t_get) ->
  new_endpoint module post_method dk = (Return ep_post, t_post) ->
  new_endpoint module View_options dk = (Return ep_options, t_options) ->
  lower "GET" = "get" ->
  lower "DELETE" = "delete" ->
  upper "get" = "GET" ->
  upper "post" = "POST" ->
  upper "options" = "OPTIONS" ->
  let self := {| endpoints := [("get", ep_get); ("post", ep_post);
                               ("options", ep_options)] |} in
  ClassBasedRouter.init new_endpoint module (view_subclass_instance own) dk
  = (Return self, t_get ++ t_post ++ t_options)
  /\ (method request = "GET" ->
      ClassBasedRouter.get_response endpoint_get_response not_allowed_level lower upper
        self request kwargs
      = endpoint_get_response ep_get request kwargs)
  /\ (method request = "DELETE" ->
      ClassBasedRouter.get_response endpoint_get_response not_allowed_level lower upper
        self request kwargs
      = (Return (VResponse (HttpResponseNotAllowed ["GET"; "POST"; "OPTIONS"])),
         [EvLog not_allowed_level
            (LogText ("Method Not Allowed (DELETE): " +:+ path request))])
      /\ status_code (HttpResponseNotAllowed ["GET"; "POST"; "OPTIONS"]) = 405%Z).
Proof.
  intros Hget Hpost Hrest Hnew_get Hnew_post Hnew_options
    Hl_get Hl_delete Hu_get Hu_post Hu_options self.
  assert (forall n, n ∈ ["put"; "patch"; "delete"; "head"; "trace"] ->
            (own ∪ {[ "options" := View_options ]}) !! n = None) as Hnone.
  { intros n Hn. apply lookup_union_None. split.
    - apply Hrest.
      repeat (apply elem_of_cons in Hn as [->|Hn]; [by repeat constructor|]).
      by apply elem_of_nil in Hn.
    - apply lookup_singleton_ne.
      repeat (apply elem_of_cons in Hn as [->|Hn]; [discriminate|]).
      by apply elem_of_nil in Hn. }
  assert ((own ∪ {[ "options" := View_options ]}) !! "options" = Some View_options)
    as Hoptions.
  { rewrite lookup_union_r; [apply lookup_singleton_eq|].
    apply Hrest. by repeat constructor. }
  split; [|split].
  - unfold ClassBasedRouter.init, view_subclass_instance, View_http_method_names.
    cbn [http_method_names inst_attrs ClassBasedRouter.collect].
    rewrite (lookup_union_Some_l _ _ _ _ Hget), Hnew_get, bind_Return.
    rewrite (lookup_union_Some_l _ _ _ _ Hpost), Hnew_post, bind_Return.
    rewrite !Hnone by (by repeat constructor).
    rewrite Hoptions, Hnew_options, bind_Return.
    rewrite !Hnone by (by repeat constructor). cbn.
    by rewrite ?app_nil_r, <- ?app_assoc.
  - intros Hm. unfold ClassBasedRouter.get_response. rewrite Hm, Hl_get. reflexivity.
  - intros Hm. unfold ClassBasedRouter.get_response. rewrite Hm, Hl_delete.
    cbn. rewrite Hu_get, Hu_post, Hu_options. split; reflexivity.
Qed.

Lemma class_router_get_post_witness :
  exists self,
    class_init views_module
      (view_subclass_instance {[ "get" := account_get; "post" := account_post ]}) None
    = (Return self, [])
    /\ class_get_response bare_env self (request_with_method "GET") ∅
       = ViewFunctionRouter.get_response bare_env account_get_router
           (request_with_method "GET") ∅
    /\ class_get_response bare_env self (request_with_method "DELETE") ∅
       = (Return (VResponse (HttpResponseNotAllowed ["GET"; "POST"; "OPTIONS"])),
          [EvLog WARNING (LogText "Method Not Allowed (DELETE): /account/")]).
Proof.
  destruct (class_router_get_post ViewFunctionRouter.init
              (ViewFunctionRouter.get_response bare_env) WARNING
              ascii_lower ascii_upper
              views_module {[ "get" := account_get; "post" := account_post ]} None
              account_get account_post
              account_get_router account_post_router
              {| vfr_module := views_module; function := View_options;
                 decorator_kwargs := None;
                 parameters := [ {| vp_data := {| name := "args"; type := VParamEmpty;
                                                  default := VParamEmpty |};
                                    converter := None |};
                                 {| vp_data := {| name := "kwargs"; type := VParamEmpty;
                                                  default := VParamEmpty |};
                                    converter := None |} ] |}
              [] [] []
              (request_with_method "GET") ∅)
    as (Hinit & Hget & _).
  - reflexivity.
  - reflexivity.
  - intros n Hn. vm_compute.
    repeat (apply elem_of_cons in Hn as [->|Hn]; [reflexivity|]).
    by apply elem_of_nil in Hn.
  - reflexivity.
  - reflexivity.
  - reflexivity.
  - reflexivity.
  - reflexivity.
  - reflexivity.
  - reflexivity.
  - reflexivity.
  - eexists. split; [exact Hinit|]. split; [exact (Hget eq_refl)|]. reflexivity.
Defined.

Example delete_on_account :
  class_get_response bare_env account_router (request_with_method "DELETE") ∅
  = (Return (VResponse (HttpResponseNotAllowed ["GET"; "POST"])),
     [EvLog WARNING (LogText "Method Not Allowed (DELETE): /account/")]).
Proof. reflexivity. Qed.

(** ** C5: neither the module nor the fallback template *)

Lemma append_assoc (a b c : string) : (a +:+ b) +:+ c = a +:+ (b +:+ c).
Proof.
  induction a as [|x a IH]; [reflexivity|].
  change (String x ((a +:+ b) +:+ c) = String x (a +:+ (b +:+ c))).
  by rewrite IH.
Qed.

(** Without a module spec the factory tries the template and nothing else. *)
Lemma router_factory_body_without_spec env app_name module_name function_name
    fallback_template :
  spec_absent env module_name ->
  router_factory_body env app_name module_name function_name fallback_template =
  match get_template env app_name fallback_template with
  | Return _ =>
      (Return (TemplateRouter {| app_name := app_name;
                                 template_name := fallback_template |}), [])
  | Raise (TemplateDoesNotExist msg) =>
      (Raise (ViewDoesNotExist
                (not_found_msg module_name fallback_template (TemplateDoesNotExist msg))), [])
  | Raise e => (Raise e, [])
  end.
Proof.
  intros Habs. unfold router_factory_body, TemplateViewRouter.init.
  assert (catch (lift (find_spec env module_name))
            (fun e => match e with ValueError _ => Some (ret None) | _ => None end)
          = (Return None, [])) as ->.
  { destruct Habs as [-> | [msg ->]]; reflexivity. }
  rewrite bind_Return. cbn [fst snd].
  destruct (get_template env app_name fallback_template) as [tpl|[]]; reflexivity.
Qed.

(** When the spec lookup answers [None] or raises [ValueError], and loading
    the fallback template raises [TemplateDoesNotExist], the factory returns
    a registry-exception router whose diagnostic names both failures: the
    view module that was not found and the fallback template that could not
    be loaded. *)
Theorem missing_module_and_template env app_name module_name function_name
    fallback_template msg request :
  spec_absent env module_name ->
  get_template env app_name fallback_template = Raise (TemplateDoesNotExist msg) ->
  exists router,
    router_factory env app_name module_name function_name fallback_template
    = (Return (ExceptionRouter router), [])
    /\ RegistryExceptionRouter.message router request
       = not_found_msg module_name fallback_template (TemplateDoesNotExist msg)
    /\ mentions ("View module " +:+ module_name +:+ " not found")
         (RegistryExceptionRouter.message router request)
    /\ mentions ("fallback template " +:+ fallback_template +:+ " could not be loaded")
         (RegistryExceptionRouter.message router request).
Proof.
  intros Habs Htpl.
  exists {| exc := ViewDoesNotExist
                     (not_found_msg module_name fallback_template
                        (TemplateDoesNotExist msg)) |}.
  split; [|split; [reflexivity|split]].
  - unfold router_factory.
    rewrite (router_factory_body_without_spec _ _ _ _ _ Habs), Htpl. reflexivity.
  - exists "", (", and fallback template " +:+ fallback_template
                +:+ " could not be loaded (" +:+ msg +:+ ")").
    cbn [RegistryExceptionRouter.message exc exn_str]. unfold not_found_msg.
    cbn [exn_str]. rewrite !append_assoc. reflexivity.
  - exists ("View module " +:+ module_name +:+ " not found, and "), (" (" +:+ msg +:+ ")").
    cbn [RegistryExceptionRouter.message exc exn_str]. unfold not_found_msg.
    cbn [exn_str]. rewrite !append_assoc. reflexivity.
Qed.

Lemma missing_module_and_template_witness :
  exists router,
    router_factory bare_env "homepage" "homepage.views.none" "process_request"
      "none.html"
    = (Return (ExceptionRouter router), [])
    /\ RegistryExceptionRouter.message router (sample_request [])
       = "View module homepage.views.none not found, and fallback template none.html could not be loaded (none.html)".
Proof.
  destruct (missing_module_and_template bare_env "homepage" "homepage.views.none"
              "process_request" "none.html" "none.html" (sample_request []))
    as (router & Hrun & Hmsg & _).
  - left. reflexivity.
  - reflexivity.
  - exists router. split; [exact Hrun | exact Hmsg].
Defined.

(** C5 (defect): a module that cannot be located because [find_spec]
    raises anything but [ValueError] (and [ViewDoesNotExist]) is not treated
    as absent: the fallback template is not tried, the exception leaves the
    factory, and no registry-exception router naming the two failures is
    returned, whether or not the template could be loaded. *)
Theorem unlocated_module_error_escapes env app_name module_name function_name
    fallback_template e :
  spec_lookup_fails env module_name e ->
  is_ViewDoesNotExist e = false ->
  router_factory env app_name module_name function_name fallback_template
  = (Raise e, [])
  /\ ~ reports_both_failures env app_name module_name function_name fallback_template.
Proof.
  intros [Hspec Hne] Hnot.
  assert (router_factory env app_name module_name function_name fallback_template
          = (Raise e, [])) as Hrun.
  { unfold router_factory, router_factory_body. rewrite Hspec.
    destruct e; try reflexivity; [discriminate Hnot | by destruct (Hne msg)]. }
  split; [exact Hrun|].
  intros (router & request & t & Hret & _). rewrite Hrun in Hret. discriminate Hret.
Qed.

Lemma unlocated_module_error_escapes_witness :
  get_template no_package_env "homepage" "index.html"
  = Raise (TemplateDoesNotExist "index.html")
  /\ router_factory no_package_env "homepage" "nopkg.views.index" "process_request"
       "index.html"
     = (Raise (ImportError "No module named 'nopkg'"), [])
  /\ ~ reports_both_failures no_package_env "homepage" "nopkg.views.index"
         "process_request" "index.html".
Proof.
  split; [reflexivity|].
  apply (unlocated_module_error_escapes no_package_env "homepage" "nopkg.views.index"
           "process_request" "index.html" (ImportError "No module named 'nopkg'")).
  - split; [reflexivity | discriminate].
  - reflexivity.
Defined.

(** ** C2: what router_factory returns and what it lets through *)

(** C2, as stated, fails: [import_module] is called outside any handler
    but the one for [ViewDoesNotExist], so what it raises reaches the
    caller. *)
Lemma import_failure_escapes_factory :
  ~ never_raises broken_import_env "homepage" "homepage.views.index" "show" "index.html".
Proof. intros [router H]. discriminate H. Qed.

Lemma router_factory_Raise env app_name module_name function_name fallback_template e :
  fst (router_factory env app_name module_name function_name fallback_template) = Raise e ->
  is_ViewDoesNotExist e = false
  /\ fst (router_factory_body env app_name module_name function_name fallback_template)
     = Raise e.
Proof.
  unfold router_factory.
  destruct (router_factory_body _ _ _ _ _) as [[r|e'] t]; [discriminate|].
  destruct e'; simpl; intros [= <-]; split; reflexivity.
Qed.

Lemma init_Raise module f dk e :
  fst (ViewFunctionRouter.init module f dk) = Raise e -> fn_signature f = Raise e.
Proof.
  unfold ViewFunctionRouter.init. destruct (fn_signature f) as [sig|e']; simpl; congruence.
Qed.

Lemma collect_Raise module instance dk names e :
  forall eps,
    fst (ClassBasedRouter.collect ViewFunctionRouter.init module instance dk names eps)
    = Raise e ->
    exists mthd_name f,
      inst_attrs instance !! mthd_name = Some f /\ fn_signature f = Raise e.
Proof.
  induction names as [|n names IH]; intros eps; simpl; [discriminate|].
  destruct (inst_attrs instance !! n) as [f|] eqn:Hf; [|apply IH].
  destruct (ViewFunctionRouter.init module f dk) as [[ep|e'] t] eqn:Hinit.
  - rewrite bind_Return. cbn [fst]. apply IH.
  - simpl. intros [= <-]. exists n, f. split; [exact Hf|].
    apply (init_Raise module f dk). by rewrite Hinit.
Qed.

Lemma class_init_Raise module instance dk e :
  fst (class_init module instance dk) = Raise e ->
  exists mthd_name f,
    inst_attrs instance !! mthd_name = Some f /\ fn_signature f = Raise e.
Proof.
  unfold class_init, ClassBasedRouter.init.
  destruct (ClassBasedRouter.collect _ _ _ _ _ _) as [[eps|e'] t] eqn:Hc.
  - rewrite bind_Return. discriminate.
  - simpl. intros [= <-].
    apply (collect_Raise module instance dk (http_method_names instance) e' []).
    by rewrite Hc.
Qed.

(** With a module spec, the factory imports the module and looks the
    function up in it. *)
Lemma router_factory_body_with_spec env app_name module_name function_name
    fallback_template :
  find_spec env module_name = Return (Some tt) ->
  router_factory_body env app_name module_name function_name fallback_template =
  match import_module env module_name with
  | Raise e => (Raise e, [EvImport module_name])
  | Return module =>
      match mod_attrs module !! function_name with
      | None =>
          (Raise (ViewDoesNotExist (not_defined_msg module_name function_name)),
           [EvImport module_name])
      | Some PyNone =>
          (Raise (ViewDoesNotExist (not_decorated_msg module_name function_name)),
           [EvImport module_name])
      | Some (PyFunction f) =>
          match fn_decoration f with
          | None =>
              (Raise (ViewDoesNotExist (not_decorated_msg module_name function_name)),
               [EvImport module_name])
          | Some (_, kw) =>
              let! _ := emit (EvImport module_name) in
              let! r := ViewFunctionRouter.init module f (Some kw) in
              ret (FunctionRouter r)
          end
      | Some (PyViewClass c) =>
          let! _ := emit (EvImport module_name) in
          let! instance := lift (cls_new c) in
          let! r := class_init module instance (snd <$> cls_decoration c) in
          ret (ClassRouter r)
      end
  end.
Proof.
  intros Hspec. unfold router_factory_body. rewrite Hspec.
  destruct (import_module env module_name) as [module|e]; [|reflexivity].
  cbn. unfold getattr.
  destruct (mod_attrs module !! function_name) as [[|f|c]|]; [| | |reflexivity].
  - reflexivity.
  - cbn. unfold view_function_is_decorated, view_function_get_args_0. cbn [decoration].
    destruct (fn_decoration f) as [[a kw]|]; [|reflexivity].
    cbn. destruct (fn_signature f) as [sig|e]; reflexivity.
  - cbn. unfold view_function_get_args_0. cbn [decoration].
    destruct (cls_decoration c) as [[a kw]|]; cbn;
      destruct (cls_new c) as [instance|e]; cbn; try reflexivity;
      match goal with |- context [class_init ?m ?i ?d] =>
        destruct (class_init m i d) as [[r|e] t] end; reflexivity.
Qed.

Lemma router_factory_body_spec_error env app_name module_name function_name
    fallback_template e :
  find_spec env module_name = Raise e ->
  (forall msg, e <> ValueError msg) ->
  router_factory_body env app_name module_name function_name fallback_template
  = (Raise e, []).
Proof.
  intros Hspec Hne. unfold router_factory_body. rewrite Hspec.
  destruct e; try reflexivity. by destruct (Hne msg).
Qed.

Lemma router_factory_Raise_iff env app_name module_name function_name
    fallback_template e :
  fst (router_factory env app_name module_name function_name fallback_template) = Raise e
  <-> is_ViewDoesNotExist e = false
      /\ fst (router_factory_body env app_name module_name function_name fallback_template)
         = Raise e.
Proof.
  split; [apply router_factory_Raise|]. intros [Hnot Hbody]. unfold router_factory.
  destruct (router_factory_body _ _ _ _ _) as [[r|e'] t]; [discriminate Hbody|].
  cbn [fst] in Hbody. injection Hbody as ->.
  destruct e; try reflexivity. discriminate Hnot.
Qed.

Lemma collect_first_failure module instance dk names e :
  forall eps,
    fst (ClassBasedRouter.collect ViewFunctionRouter.init module instance dk names eps)
    = Raise e
    <-> first_signature_failure instance names = Some e.
Proof.
  induction names as [|n names IH]; intros eps; [split; discriminate|].
  cbn [ClassBasedRouter.collect first_signature_failure].
  destruct (inst_attrs instance !! n) as [f|]; [|apply IH].
  unfold ViewFunctionRouter.init at 1.
  destruct (fn_signature f) as [sig|e']; cbn.
  - match goal with |- context [dict_set n ?ep eps] =>
      specialize (IH (dict_set n ep eps));
      destruct (ClassBasedRouter.collect ViewFunctionRouter.init module instance dk
                  names (dict_set n ep eps)) as [r t] end.
    exact IH.
  - split; intros [= ->]; reflexivity.
Qed.

Lemma class_init_first_failure module instance dk e :
  fst (class_init module instance dk) = Raise e
  <-> first_signature_failure instance (http_method_names instance) = Some e.
Proof.
  rewrite <- (collect_first_failure module instance dk (http_method_names instance) e []).
  unfold class_init, ClassBasedRouter.init.
  destruct (ClassBasedRouter.collect _ _ _ _ _ _) as [[eps|e'] t].
  - rewrite bind_Return. cbn. split; discriminate.
  - rewrite bind_Raise. cbn [fst]. split; intros [= ->]; reflexivity.
Qed.

Lemma router_factory_body_unhandled env app_name module_name function_name
    fallback_template e :
  find_spec env module_name = Return (Some tt) \/ spec_absent env module_name ->
  is_ViewDoesNotExist e = false ->
  fst (router_factory_body env app_name module_name function_name fallback_template)
  = Raise e ->
  unhandled_failure env app_name module_name function_name fallback_template e.
Proof.
  intros Hloc Hnot Hrun. split; [exact Hnot|].
  destruct Hloc as [Hspec|Habs].
  - rewrite (router_factory_body_with_spec _ _ _ _ _ Hspec) in Hrun.
    destruct (import_module env module_name) as [module|e1] eqn:Himp.
    2:{ injection Hrun as <-. right. left. by split. }
    right. right. exists module. split; [exact Hspec|]. split; [reflexivity|].
    destruct (mod_attrs module !! function_name) as [[|f|c]|] eqn:Hattr.
    + injection Hrun as <-. discriminate Hnot.
    + left. destruct (fn_decoration f) as [[a kw]|] eqn:Hdec.
      * apply bind_fst_Raise in Hrun as [Hrun|[[] [_ Hrun]]]; [discriminate Hrun|].
        apply bind_fst_Raise in Hrun as [Hrun|[r [_ Hrun]]]; [|discriminate Hrun].
        exists f, a, kw. split; [reflexivity|]. split; [exact Hdec|].
        by apply (init_Raise module f (Some kw)).
      * injection Hrun as <-. discriminate Hnot.
    + right. exists c. split; [reflexivity|].
      apply bind_fst_Raise in Hrun as [Hrun|[[] [_ Hrun]]]; [discriminate Hrun|].
      apply bind_fst_Raise in Hrun as [Hrun|[instance [Hnew Hrun]]]; [by left|].
      right. exists instance. split; [exact Hnew|].
      apply bind_fst_Raise in Hrun as [Hrun|[r [_ Hrun]]]; [|discriminate Hrun].
      by apply (class_init_first_failure module instance (snd <$> cls_decoration c)).
    + injection Hrun as <-. discriminate Hnot.
  - rewrite (router_factory_body_without_spec _ _ _ _ _ Habs) in Hrun.
    destruct (get_template env app_name fallback_template) as [tpl|e1] eqn:Htpl;
      [discriminate Hrun|].
    left. split; [exact Habs|].
    destruct e1; injection Hrun as <-; try (split; [reflexivity | discriminate]).
    discriminate Hnot.
Qed.

Lemma unhandled_router_factory_body env app_name module_name function_name
    fallback_template e :
  unhandled_failure env app_name module_name function_name fallback_template e ->
  fst (router_factory_body env app_name module_name function_name fallback_template)
  = Raise e.
Proof.
  intros (Hnot & [(Habs & Htpl & Hne)
                 |[(Hspec & Himp)
                  |(module & Hspec & Himp
                    & [(f & a & kw & Hattr & Hdec & Hsig)
                      |(c & Hattr & [Hnew|(instance & Hnew & Hfail)])])]]).
  - rewrite (router_factory_body_without_spec _ _ _ _ _ Habs), Htpl.
    destruct e; try reflexivity. by destruct (Hne msg).
  - by rewrite (router_factory_body_with_spec _ _ _ _ _ Hspec), Himp.
  - rewrite (router_factory_body_with_spec _ _ _ _ _ Hspec), Himp, Hattr, Hdec.
    rewrite bind_emit. cbn [fst]. unfold ViewFunctionRouter.init. by rewrite Hsig.
  - rewrite (router_factory_body_with_spec _ _ _ _ _ Hspec), Himp, Hattr.
    rewrite bind_emit. cbn [fst]. by rewrite Hnew.
  - rewrite (router_factory_body_with_spec _ _ _ _ _ Hspec), Himp, Hattr.
    rewrite bind_emit. cbn [fst]. rewrite Hnew. unfold lift. rewrite bind_Return.
    cbn [fst].
    apply (class_init_first_failure module instance (snd <$> cls_decoration c)) in Hfail.
    destruct (class_init module instance (snd <$> cls_decoration c)) as [[r|e'] t];
      [discriminate Hfail|].
    cbn [fst] in Hfail. by injection Hfail as ->.
Qed.

(** C2 (amended): when the spec lookup answers (a spec, [None] or
    [ValueError]), the factory raises exactly when a call it makes raises an
    exception it has no handler for: the template loader when no spec was
    found (anything but [TemplateDoesNotExist]), [import_module] when the
    spec was found, the signature of the decorated function, the constructor
    of the view class or the signature of one of its methods; that
    exception, which is never [ViewDoesNotExist], reaches the caller, and
    otherwise a router is returned.  Each failure along the lookup path is
    folded into a returned registry-exception router: module and fallback
    template both missing, function absent from the module, function found
    but not decorated. *)
Theorem router_factory_outcomes env app_name module_name function_name fallback_template :
  find_spec env module_name = Return (Some tt) \/ spec_absent env module_name ->
  let run := fst (router_factory env app_name module_name function_name fallback_template) in
  (forall e, run = Raise e
             <-> unhandled_failure env app_name module_name function_name
                   fallback_template e)
  /\ ((forall e, ~ unhandled_failure env app_name module_name function_name
                     fallback_template e) ->
      exists router, run = Return router)
  /\ (forall msg,
        spec_absent env module_name ->
        get_template env app_name fallback_template = Raise (TemplateDoesNotExist msg) ->
        run = Return (ExceptionRouter
                        {| exc := ViewDoesNotExist
                                    (not_found_msg module_name fallback_template
                                       (TemplateDoesNotExist msg)) |}))
  /\ (forall module,
        find_spec env module_name = Return (Some tt) ->
        import_module env module_name = Return module ->
        mod_attrs module !! function_name = None ->
        run = Return (ExceptionRouter
                        {| exc := ViewDoesNotExist
                                    (not_defined_msg module_name function_name) |}))
  /\ (forall module f,
        find_spec env module_name = Return (Some tt) ->
        import_module env module_name = Return module ->
        mod_attrs module !! function_name = Some (PyFunction f) ->
        fn_decoration f = None ->
        run = Return (ExceptionRouter
                        {| exc := ViewDoesNotExist
                                    (not_decorated_msg module_name function_name) |})).
Proof.
  intros Hloc run.
  assert (forall e, run = Raise e
                    <-> unhandled_failure env app_name module_name function_name
                          fallback_template e) as Hiff.
  { intros e. subst run. rewrite router_factory_Raise_iff. split.
    - intros [Hnot Hbody]. by apply router_factory_body_unhandled.
    - intros Hun. split; [apply Hun | by apply unhandled_router_factory_body]. }
  split; [exact Hiff|]. split; [|split; [|split]].
  - intros Hquiet. destruct run as [router|e] eqn:Hrun; [by exists router|].
    destruct (Hquiet e). by apply Hiff.
  - intros msg Habs Htpl. subst run. unfold router_factory.
    rewrite (router_factory_body_without_spec _ _ _ _ _ Habs), Htpl. reflexivity.
  - intros module Hspec Himp Hattr. subst run. unfold router_factory.
    rewrite (router_factory_body_with_spec _ _ _ _ _ Hspec), Himp, Hattr. reflexivity.
  - intros module f Hspec Himp Hattr Hdec. subst run. unfold router_factory.
    rewrite (router_factory_body_with_spec _ _ _ _ _ Hspec), Himp, Hattr, Hdec.
    reflexivity.
Qed.

Lemma router_factory_outcomes_witness :
  unhandled_failure broken_import_env "homepage" "homepage.views.index" "show"
    "index.html" (OtherException "SyntaxError" "invalid syntax")
  /\ exists router,
       fst (router_factory other_env "homepage" "homepage.views.other" "show" "other.html")
       = Return router.
Proof.
  split.
  - destruct (router_factory_outcomes broken_import_env "homepage" "homepage.views.index"
                "show" "index.html" (or_introl eq_refl)) as (Hiff & _).
    apply Hiff. reflexivity.
  - destruct (router_factory_outcomes other_env "homepage" "homepage.views.other"
                "show" "other.html" (or_introl eq_refl)) as (_ & Hret & _).
    apply Hret.
    intros e (_ & [([Habs|[msg Habs]] & _)
                  |[(_ & Himp)
                   |(module & _ & Himp
                     & [(f & a & kw & Hattr & _ & Hsig)|(c & Hattr & _)])]]);
      try discriminate.
    + injection Himp as <-. vm_compute in Hattr. injection Hattr as <-.
      discriminate Hsig.
    + injection Himp as <-. vm_compute in Hattr. discriminate Hattr.
Defined.

Example factory_builds_function_router :
  router_factory other_env "homepage" "homepage.views.other" "show" "other.html"
  = (Return (FunctionRouter
               {| vfr_module := other_module; function := show_view;
                  decorator_kwargs := Some ∅; parameters := [param_a] |}),
     [EvImport "homepage.views.other"]).
Proof. reflexivity. Qed.

Example factory_folds_missing_function :
  router_factory other_env "homepage" "homepage.views.other" "edit" "other.html"
  = (Return (ExceptionRouter
               {| exc := ViewDoesNotExist
                           (not_defined_msg "homepage.views.other" "edit") |}),
     [EvImport "homepage.views.other"]).
Proof. reflexivity. Qed.

Example factory_folds_undecorated_function :
  router_factory other_env "homepage" "homepage.views.other" "plain" "other.html"
  = (Return (ExceptionRouter
               {| exc := ViewDoesNotExist
                           (not_decorated_msg "homepage.views.other" "plain") |}),
     [EvImport "homepage.views.other"]).
Proof. reflexivity. Qed.

Example factory_lets_import_failure_through :
  router_factory broken_import_env "homepage" "homepage.views.index" "show" "index.html"
  = (Raise (OtherException "SyntaxError" "invalid syntax"),
     [EvImport "homepage.views.index"]).
Proof. reflexivity. Qed.

(** ** route_request: shared facts *)


Lemma route_request_Raise env fuel request kwargs e t :
  route_iteration env request kwargs = (Raise e, t) ->
  route_request env (S fuel) request kwargs = (Raise e, t).
Proof. intros Hit. cbn [route_request]. by rewrite Hit. Qed.

(** An exception of the [try] body that is not a redirect leaves the loop. *)
Lemma route_iteration_escape env request kwargs e t :
  route_try env request kwargs = (Raise e, t) ->
  match e with
  | InternalRedirectException _ _ | RedirectException _ => False
  | _ => True
  end ->
  route_iteration env request kwargs = (Raise e, t).
Proof.
  intros Htry Hne. unfold route_iteration. rewrite Htry, bind_Raise.
  destruct e; simpl; try reflexivity; destruct Hne.
Qed.

Lemma call_receivers_quiet rs : snd (call_receivers rs) = [].
Proof.
  induction rs as [|[v|e] rs IH]; [reflexivity| |reflexivity].
  cbn [call_receivers]. unfold lift. rewrite bind_Return. cbn [fst snd app].
  destruct (call_receivers rs) as [[vs|e] t]; simpl in *; by subst.
Qed.

Lemma call_receivers_Return rs :
  Forall (fun r => exists v, r = Return v) rs ->
  exists vs, call_receivers rs = (Return vs, []).
Proof.
  induction 1 as [|r rs [v ->] _ [vs IH]]; [by exists []|].
  exists (v :: vs). cbn [call_receivers]. unfold lift. by rewrite bind_Return, IH.
Qed.

(** ** C7: a cached negative resolution *)

(** For a registry-exception router the loop leaves at once with the
    not-found signal: the diagnostic is logged at error level and no signal
    is sent, so no receiver runs. *)
Lemma exception_router_short_circuits env rd x kwargs fuel :
  route_request env (S fuel)
    {| data := rd; dmp_router_callback := CbRouter (ExceptionRouter x) |} kwargs
  = (Raise Http404,
     info_processing env rd ++ [EvLog ERROR (LogText (exn_str (exc x)))]).
Proof.
  apply route_request_Raise, route_iteration_escape; [|exact I].
  unfold route_try, pre_dispatch, info_processing. cbn.
  destruct (log_info_enabled env); reflexivity.
Qed.

(** C7 (what the code does for the marker): when the callback is a
    [ViewDoesNotExist] instance, the diagnostic is asked of it with
    [.message(request)], which the exception class does not have; the loop
    is left with [AttributeError], nothing is logged at error level and no
    not-found signal is raised.  No receiver runs on this path either. *)
Theorem marker_callback_raises_AttributeError env rd msg kwargs fuel :
  route_request env (S fuel)
    {| data := rd; dmp_router_callback := CbViewDoesNotExist msg |} kwargs
  = (Raise (AttributeError "'ViewDoesNotExist' object has no attribute 'message'"),
     info_processing env rd).
Proof.
  apply route_request_Raise, route_iteration_escape; [|exact I].
  unfold route_try, pre_dispatch, info_processing. cbn.
  destruct (log_info_enabled env); reflexivity.
Qed.

(** ** C8: a view that does not return a response *)

Lemma first_response_is_response rets v :
  first_response rets = Some v -> is_response v = true.
Proof. unfold first_response. intros H. by apply find_some in H as [_ H]. Qed.

Lemma pre_dispatch_Some env request v t :
  pre_dispatch env request = (Return (Some v), t) -> is_response v = true.
Proof.
  unfold pre_dispatch.
  destruct (dmp_router_callback request) as [|m|r|[|f|c]]; try discriminate;
    destruct (log_info_enabled env); cbn;
    try (destruct r; cbn);
    destruct (SIGNALS env); cbn; try discriminate;
    destruct (call_receivers _) as [[rets|e] t']; cbn; try discriminate;
    intros [= H _]; by apply first_response_is_response in H.
Qed.

Lemma dispatch_Return env request kwargs v t :
  dispatch env request kwargs = (Return v, t) -> is_response v = true.
Proof.
  unfold dispatch. intros H.
  apply bind_Return_inv in H as (_ & _ & t1 & _ & H & _).
  apply bind_Return_inv in H as (response & _ & t2 & _ & H & _).
  apply bind_Return_inv in H as (response' & _ & t3 & _ & H & _).
  destruct (is_response response') eqn:Hresp.
  - by injection H as <- _.
  - apply bind_Return_inv in H as (m & _ & t4 & _ & H & _).
    apply bind_Return_inv in H as ([] & _ & t5 & _ & H & _). discriminate H.
Qed.

(** Whatever the [try] body returns to the caller is a response. *)
Lemma route_try_Return env request kwargs v t :
  route_try env request kwargs = (Return v, t) -> is_response v = true.
Proof.
  unfold route_try. intros H.
  apply bind_Return_inv in H as ([early|] & t1 & t2 & Hpre & H & _).
  - injection H as <- _. by apply pre_dispatch_Some in Hpre.
  - by apply dispatch_Return in H.
Qed.



(** The view's response is replaced by the last receiver result that is
    not [None]; here that is a string, and the pass ends not-found. *)
Example post_receiver_spoils_response :
  route_request spoiling_env 1 show_request ∅
  = (Raise Http404,
     [EvLog INFO (LogProcessing "homepage" "index" "homepage.views.index" "show" ["x"]);
      EvSend dmp_signal_pre_process_request;
      EvLog INFO (LogText "calling view function homepage.views.index.show");
      EvConvert false "a" (VStr "x");
      EvCall "show" [VRequest (sample_request ["x"]); VStr "x"] ∅;
      EvSend dmp_signal_post_process_request;
      EvLog ERROR (LogText (failed_msg "view function homepage.views.index.show"))]).
Proof. reflexivity. Qed.

(** ** C6: internal redirects *)





(** A redirect to a module that cannot be imported stores the marker, and
    the next pass fails on it. *)
Example redirect_to_missing_module :
  route_request bare_env 2 forward_request ∅
  = (Raise (AttributeError "'ViewDoesNotExist' object has no attribute 'message'"),
     [EvCall "forward" [VRequest (sample_request [])] ∅;
      EvImport "homepage.views.other";
      EvLog INFO (LogText "received an InternalViewRedirect to homepage.views.other -> show")]).
Proof. reflexivity. Qed.

(** * Further properties *)

(** ** Traces of composed computations *)

Lemma bind_trace {A B} (P : event -> Prop) (c : M A) (k : A -> M B) :
  Forall P (snd c) ->
  (forall a, fst c = Return a -> Forall P (snd (k a))) ->
  Forall P (snd (bind c k)).
Proof.
  destruct c as [[a|e] t]; cbn [fst snd]; intros Hc Hk; [|exact Hc].
  rewrite bind_Return. cbn [snd]. apply Forall_app. split; [exact Hc | by apply Hk].
Qed.

Lemma catch_trace {A} (P : event -> Prop) (c : M A) (h : exn -> option (M A)) :
  Forall P (snd c) ->
  (forall e k, fst c = Raise e -> h e = Some k -> Forall P (snd k)) ->
  Forall P (snd (catch c h)).
Proof.
  destruct c as [[a|e] t]; cbn [fst snd]; intros Hc Hh; [exact Hc|].
  unfold catch. destruct (h e) as [[r t']|] eqn:He; [|exact Hc].
  cbn [snd]. apply Forall_app. split; [exact Hc|].
  by apply (Hh e (r, t')).
Qed.

Lemma lift_trace {A} (P : event -> Prop) (r : res A) : Forall P (snd (lift r)).
Proof. constructor. Qed.

Lemma ret_trace {A} (P : event -> Prop) (a : A) : Forall P (snd (ret a)).
Proof. constructor. Qed.

Lemma throw_trace {A} (P : event -> Prop) (e : exn) : Forall P (snd (@throw A e)).
Proof. constructor. Qed.

Lemma emit_trace (P : event -> Prop) (ev : event) : P ev -> Forall P (snd (emit ev)).
Proof. intros H. by repeat constructor. Qed.

Ltac trace_step :=
  first
    [ apply ret_trace | apply throw_trace | apply lift_trace
    | apply emit_trace; try reflexivity
    | apply bind_trace; [|intros ? _]
    | apply catch_trace; [|intros ? ? _ ?] ].

(** ** Dictionaries *)

Lemma dict_get_set_eq {V} k (v : V) d : dict_get k (dict_set k v d) = Some v.
Proof.
  induction d as [|[k' v'] d IH]; simpl.
  - by rewrite String.eqb_refl.
  - destruct (String.eqb_spec k k') as [->|Hne]; simpl.
    + by rewrite String.eqb_refl.
    + destruct (String.eqb_spec k k'); [done | exact IH].
Qed.

Lemma dict_get_set_ne {V} k k' (v : V) d :
  k <> k' -> dict_get k' (dict_set k v d) = dict_get k' d.
Proof.
  intros Hne. induction d as [|[k0 v0] d IH]; simpl.
  - destruct (String.eqb_spec k' k); [congruence | reflexivity].
  - destruct (String.eqb_spec k k0) as [->|Hk]; simpl.
    + destruct (String.eqb_spec k' k0); [congruence | reflexivity].
    + destruct (String.eqb_spec k' k0); [reflexivity | exact IH].
Qed.

Lemma dict_get_is_Some {V} k (d : list (string * V)) :
  is_Some (dict_get k d) <-> k ∈ dict_keys d.
Proof.
  induction d as [|[k' v] d IH]; simpl.
  - split; [intros [? [=]] | intros []%elem_of_nil].
  - destruct (String.eqb_spec k k') as [->|Hne].
    + split; [intros _; left | intros _; by eexists].
    + rewrite IH. split; [by right | intros [?|?]%elem_of_cons; done].
Qed.

Lemma dict_keys_set {V} k (v : V) d :
  dict_keys (dict_set k v d)
  = if bool_decide (k ∈ dict_keys d) then dict_keys d else dict_keys d ++ [k].
Proof.
  unfold dict_keys. induction d as [|[k' v'] d IH].
  - case_bool_decide as Hin; [by apply elem_of_nil in Hin | reflexivity].
  - cbn [dict_set]. destruct (String.eqb_spec k k') as [->|Hne]; cbn [map fst].
    + rewrite bool_decide_eq_true_2; [reflexivity | left].
    + rewrite IH. destruct (decide (k ∈ map fst d)) as [Hin|Hnin].
      * rewrite !bool_decide_eq_true_2; [reflexivity | by right | exact Hin].
      * rewrite !bool_decide_eq_false_2; [reflexivity | | exact Hnin].
        intros [?|?]%elem_of_cons; done.
Qed.

Lemma dict_keys_set_NoDup {V} k (v : V) d :
  NoDup (dict_keys d) -> NoDup (dict_keys (dict_set k v d)).
Proof.
  intros Hnd. rewrite dict_keys_set. case_bool_decide as Hin; [exact Hnd|].
  apply NoDup_app. split; [exact Hnd|]. split; [|apply NoDup_singleton].
  intros x Hx ->%list_elem_of_singleton. by apply Hin.
Qed.

(** ** ClassBasedRouter: which endpoints exist *)

Lemma collect_spec {Endpoint : Type}
    (new_endpoint : PyModule -> function_obj -> option (gmap string value) -> M Endpoint)
    module instance dk names :
  forall eps eps' t,
    ClassBasedRouter.collect new_endpoint module instance dk names eps = (Return eps', t) ->
    (forall k, is_Some (dict_get k eps')
               <-> is_Some (dict_get k eps)
                   \/ (k ∈ names /\ is_Some (inst_attrs instance !! k)))
    /\ (NoDup (dict_keys eps) -> NoDup (dict_keys eps')).
Proof.
  induction names as [|n names IH]; intros eps eps' t Hrun.
  - injection Hrun as <- _. split; [|done].
    intros k. split; [by left | intros [H|[[]%elem_of_nil _]]; exact H].
  - cbn [ClassBasedRouter.collect] in Hrun.
    destruct (inst_attrs instance !! n) as [f|] eqn:Hf.
    + apply bind_Return_inv in Hrun as (ep & t1 & t2 & _ & Hrun & _).
      apply IH in Hrun as [Hiff Hnd]. split.
      * intros k. rewrite Hiff. destruct (decide (n = k)) as [<-|Hne].
        -- rewrite dict_get_set_eq, Hf. split; [|by left].
           intros _. right. split; [left | by eexists].
        -- rewrite dict_get_set_ne by exact Hne. split.
           ++ intros [H|[H1 H2]]; [by left | right; split; [by right | exact H2]].
           ++ intros [H|[[?|H1]%elem_of_cons H2]]; [by left | congruence | by right].
      * intros H. by apply Hnd, dict_keys_set_NoDup.
    + apply IH in Hrun as [Hiff Hnd]. split; [|exact Hnd].
      intros k. rewrite Hiff. split.
      * intros [H|[H1 H2]]; [by left | right; split; [by right | exact H2]].
      * intros [H|[[->|H1]%elem_of_cons H2]]; [by left | | by right].
        rewrite Hf in H2. by destruct H2.
Qed.

Lemma collect_keys {Endpoint : Type}
    (new_endpoint : PyModule -> function_obj -> option (gmap string value) -> M Endpoint)
    module instance dk names :
  NoDup names ->
  forall eps eps' t,
    (forall k, k ∈ names -> k ∉ dict_keys eps) ->
    ClassBasedRouter.collect new_endpoint module instance dk names eps = (Return eps', t) ->
    dict_keys eps'
    = dict_keys eps ++ filter (fun m => is_Some (inst_attrs instance !! m)) names.
Proof.
  induction 1 as [|n names Hn Hnd IH]; intros eps eps' t Hfresh Hrun.
  - injection Hrun as <- _. by rewrite app_nil_r.
  - cbn [ClassBasedRouter.collect] in Hrun. rewrite filter_cons.
    destruct (inst_attrs instance !! n) as [f|] eqn:Hf.
    + apply bind_Return_inv in Hrun as (ep & t1 & t2 & _ & Hrun & _).
      apply IH in Hrun.
      * rewrite Hrun, dict_keys_set.
        rewrite bool_decide_eq_false_2 by (apply Hfresh; left).
        destruct (decide (is_Some (Some f))) as [_|Hno]; [|by destruct Hno; eexists].
        by rewrite <- app_assoc.
      * intros k Hk. rewrite dict_keys_set.
        rewrite bool_decide_eq_false_2 by (apply Hfresh; left).
        intros [Hin|Heq%list_elem_of_singleton]%elem_of_app.
        -- apply (Hfresh k); [by right | exact Hin].
        -- subst k. by apply Hn.
    + destruct (decide (is_Some (@None function_obj))) as [[? Hx]|_];
        [discriminate Hx|].
      apply IH in Hrun; [exact Hrun|].
      intros k Hk. apply Hfresh. by right.
Qed.

Lemma init_endpoints {Endpoint : Type}
    (new_endpoint : PyModule -> function_obj -> option (gmap string value) -> M Endpoint)
    module instance dk self t :
  ClassBasedRouter.init new_endpoint module instance dk = (Return self, t) ->
  exists t',
    ClassBasedRouter.collect new_endpoint module instance dk
      (http_method_names instance) [] = (Return (endpoints self), t').
Proof.
  unfold ClassBasedRouter.init. intros Hrun.
  apply bind_Return_inv in Hrun as (eps & t1 & t2 & Hc & Hret & _).
  injection Hret as <- _. by exists t1.
Qed.

(** X1: the endpoints of a class-based router are keyed by exactly the
    entries of [http_method_names] that are attributes of the instance; no
    key occurs twice, even if a name is listed twice; and when the names
    are listed once each, the keys are the defined names in the order of
    [http_method_names]. *)
Theorem class_endpoints_are_defined_methods {Endpoint : Type}
    (new_endpoint : PyModule -> function_obj -> option (gmap string value) -> M Endpoint)
    module instance dk self t :
  ClassBasedRouter.init new_endpoint module instance dk = (Return self, t) ->
  (forall k, is_Some (dict_get k (endpoints self))
             <-> k ∈ http_method_names instance /\ is_Some (inst_attrs instance !! k))
  /\ NoDup (dict_keys (endpoints self))
  /\ (NoDup (http_method_names instance) ->
      dict_keys (endpoints self) = defined_methods instance).
Proof.
  intros Hinit. destruct (init_endpoints _ _ _ _ _ _ Hinit) as [t' Hc].
  destruct (collect_spec _ _ _ _ _ _ _ _ Hc) as [Hiff Hnd].
  split; [|split].
  - intros k. rewrite Hiff. split; [|by right].
    intros [[? [=]]|H]; exact H.
  - apply Hnd. constructor.
  - intros Hnames.
    apply (collect_keys _ _ _ _ _ Hnames [] _ _ (fun k _ => not_elem_of_nil k) Hc).
Qed.

Lemma class_endpoints_are_defined_methods_witness :
  is_Some (dict_get "post" (endpoints account_router))
  /\ ~ is_Some (dict_get "put" (endpoints account_router))
  /\ dict_keys (endpoints account_router) = ["get"; "post"].
Proof.
  destruct (class_endpoints_are_defined_methods ViewFunctionRouter.init
              views_module account_instance None account_router [] eq_refl)
    as (Hiff & _ & Hkeys).
  split; [|split].
  - apply Hiff. split; [vm_compute; right; left | by eexists].
  - intros H. apply Hiff in H as [_ [f Hf]]. discriminate Hf.
  - apply Hkeys. apply (bool_decide_unpack _). vm_compute. exact I.
Defined.

(** X2: a request whose lowercased method is not a defined entry of
    [http_method_names] is answered with the method-not-allowed response
    listing the upper-cased endpoint keys, after one log call; no endpoint
    is invoked. *)
Theorem undefined_method_not_allowed {Endpoint : Type}
    (new_endpoint : PyModule -> function_obj -> option (gmap string value) -> M Endpoint)
    (endpoint_get_response : Endpoint -> RequestData -> gmap string value -> M value)
    (not_allowed_level : level) (lower upper : string -> string)
    module instance dk self t request kwargs :
  ClassBasedRouter.init new_endpoint module instance dk = (Return self, t) ->
  ~ (lower (method request) ∈ http_method_names instance
     /\ is_Some (inst_attrs instance !! lower (method request))) ->
  ClassBasedRouter.get_response endpoint_get_response not_allowed_level lower upper
    self request kwargs
  = (Return (VResponse (HttpResponseNotAllowed (map upper (dict_keys (endpoints self))))),
     [EvLog not_allowed_level
        (LogText ("Method Not Allowed (" +:+ method request +:+ "): " +:+ path request))]).
Proof.
  intros Hinit Hundef. destruct (init_endpoints _ _ _ _ _ _ Hinit) as [t' Hc].
  destruct (collect_spec _ _ _ _ _ _ _ _ Hc) as [Hiff _].
  unfold ClassBasedRouter.get_response.
  destruct (dict_get (lower (method request)) (endpoints self)) as [ep|] eqn:Hget;
    [|reflexivity].
  exfalso. apply Hundef.
  destruct (proj1 (Hiff (lower (method request)))) as [[? Hx]|H];
    [by rewrite Hget; eexists | discriminate Hx | exact H].
Qed.

Lemma undefined_method_not_allowed_witness :
  class_get_response bare_env account_router (request_with_method "Put") ∅
  = (Return (VResponse (HttpResponseNotAllowed ["GET"; "POST"])),
     [EvLog WARNING (LogText "Method Not Allowed (Put): /account/")]).
Proof.
  refine (eq_trans
            (undefined_method_not_allowed ViewFunctionRouter.init
               (ViewFunctionRouter.get_response bare_env) WARNING
               ascii_lower ascii_upper
               views_module account_instance None account_router []
               (request_with_method "Put") ∅ eq_refl _) _).
  - intros [_ [f Hf]]. discriminate Hf.
  - reflexivity.
Defined.

(** ** ViewFunctionRouter: construction and failing conversions *)

(** X4: a router built from a function has one parameter for each formal
    parameter of the function but the first, under the same names when the
    [view_parameter] update keeps names; construction touches nothing
    outside; and the router answers not-found as soon as more URL values are
    supplied than the function has parameters after the request. *)
Theorem built_router_follows_signature module func dk self t :
  ViewFunctionRouter.init module func dk = (Return self, t) ->
  exists sig,
    fn_signature func = Return sig
    /\ t = []
    /\ function self = func
    /\ length (parameters self) = length sig - 1
    /\ ((forall vp, name (fn_view_parameter func vp) = name vp) ->
        param_names (parameters self) = map p_name (drop 1 sig))
    /\ (forall env request kwargs,
          length sig - 1 < length (urlparams request) ->
          ViewFunctionRouter.get_response env self request kwargs = (Raise Http404, [])).
Proof.
  unfold ViewFunctionRouter.init. destruct (fn_signature func) as [sig|e]; [|discriminate].
  cbn. intros [= <- <-]. exists sig.
  assert (length (map (fun p => fn_view_parameter func
                         {| vp_data := {| name := p_name p;
                                          type := option.default VParamEmpty
                                                    (fn_annotations func !! p_name p);
                                          default := p_default p |};
                            converter := None |}) (drop 1 sig))
          = length sig - 1) as Hlen.
  { by rewrite length_map, length_drop. }
  repeat split; try reflexivity.
  - exact Hlen.
  - intros Hkeep. cbn [parameters]. unfold param_names. rewrite map_map.
    apply map_ext. intros p. by rewrite Hkeep.
  - intros env request kwargs Hmany.
    unfold ViewFunctionRouter.get_response, check_length. cbn [parameters].
    rewrite Hlen.
    destruct (Nat.ltb_spec (length sig - 1) (length (urlparams request)));
      [reflexivity | lia].
Qed.

Lemma built_router_follows_signature_witness :
  param_names (parameters show_router) = ["a"]
  /\ ViewFunctionRouter.get_response bare_env show_router (sample_request ["x"; "y"]) ∅
     = (Raise Http404, []).
Proof.
  destruct (built_router_follows_signature views_module show_view (Some ∅)
              show_router [] eq_refl)
    as (sig & Hsig & _ & _ & _ & Hnames & Hmany).
  injection Hsig as <-. split.
  - exact (Hnames (fun vp => eq_refl)).
  - apply Hmany. simpl. lia.
Defined.

Lemma convert_from_stops env ctask request (p : ViewParameter) post e pre :
  forall i args kwargs vs,
    NoDup (param_names (pre ++ p :: post)) ->
    converted_values env ctask request kwargs i pre = Return vs ->
    converter_for env ctask p (picked env request kwargs (i + length pre) p) p ctask
    = Raise e ->
    ViewFunctionRouter.convert_from env ctask request i (pre ++ p :: post) args kwargs
    = (Raise e,
       conversion_events env request kwargs i pre
         ++ [EvConvert (has_own_converter p) (name p)
               (picked env request kwargs (i + length pre) p)]).
Proof.
  induction pre as [|q pre IH]; intros i args kwargs vs Hnd Hvs Hfail.
  - cbn [app ViewFunctionRouter.convert_from conversion_events length] in *.
    rewrite Nat.add_0_r in *. rewrite convert_one_eq, Hfail. reflexivity.
  - cbn [app ViewFunctionRouter.convert_from conversion_events converted_values length]
      in *.
    change (param_names (q :: pre ++ p :: post))
      with (name q :: param_names (pre ++ p :: post)) in Hnd.
    apply NoDup_cons in Hnd as [Hq Hnd].
    assert (name q <> name p) as Hqp.
    { intros Heq. apply Hq. unfold param_names. rewrite map_app. cbn [map].
      apply elem_of_app. right. rewrite Heq. left. }
    assert (name q ∉ param_names pre) as Hqpre.
    { intros Hin. apply Hq. unfold param_names. rewrite map_app.
      apply elem_of_app. by left. }
    rewrite convert_one_eq.
    destruct (converter_for env ctask q _ q ctask) as [v|e']; [|discriminate].
    destruct (converted_values env ctask request kwargs (S i) pre) as [vs'|e'] eqn:Hpre;
      [|discriminate].
    rewrite bind_Return. cbn [fst snd].
    rewrite (IH (S i) (args ++ [v]) (delete (name q) kwargs) vs' Hnd).
    + cbn [fst snd app]. rewrite conversion_events_delete by exact Hqpre.
      rewrite picked_delete_ne by exact Hqp.
      by rewrite Nat.add_succ_r.
    + by rewrite converted_values_delete.
    + rewrite picked_delete_ne by exact Hqp.
      rewrite <- Hfail. f_equal; f_equal; lia.
Qed.

(** X5: when the converter of a parameter raises, the invocation ends with
    that exception: the converters of the parameters before it have run, in
    order, those of the parameters after it have not, and the view is not
    called. *)
Theorem failing_converter_stops_invocation env self request kwargs
    pre (p : ViewParameter) post vs e :
  parameters self = pre ++ p :: post ->
  NoDup (param_names (parameters self)) ->
  length (urlparams request) <= length (parameters self) ->
  converted_values env (ViewFunctionRouter.make_task self request) request kwargs 0 pre
  = Return vs ->
  converter_for env (ViewFunctionRouter.make_task self request) p
    (picked env request kwargs (length pre) p) p
    (ViewFunctionRouter.make_task self request)
  = Raise e ->
  ViewFunctionRouter.get_response env self request kwargs
  = (Raise e,
     conversion_events env request kwargs 0 pre
       ++ [EvConvert (has_own_converter p) (name p)
             (picked env request kwargs (length pre) p)]).
Proof.
  intros Hparams Hnd Hlen Hvs Hfail.
  unfold ViewFunctionRouter.get_response, check_length.
  destruct (Nat.ltb_spec (length (parameters self)) (length (urlparams request)));
    [lia|].
  rewrite bind_ret. rewrite Hparams in Hnd |- *.
  rewrite (convert_from_stops env _ request p post e pre 0 [VRequest request] kwargs vs
             Hnd Hvs Hfail).
  reflexivity.
Qed.

Lemma failing_converter_stops_invocation_witness :
  ViewFunctionRouter.get_response bare_env refusing_router (sample_request ["x"; "7"]) ∅
  = (Raise Http404,
     [EvConvert false "a" (VStr "x"); EvConvert true "b" (VStr "7")]).
Proof.
  refine (eq_trans
            (failing_converter_stops_invocation bare_env refusing_router
               (sample_request ["x"; "7"]) ∅ [param_a] param_b [param_c] [VStr "x"]
               Http404 eq_refl _ _ eq_refl eq_refl) _).
  - apply (bool_decide_unpack _). vm_compute. exact I.
  - simpl. lia.
  - reflexivity.
Defined.

(** ** route_request: the paths of one pass *)

Lemma call_receivers_values {F} (apply_to : F -> res value) (fs : list F) rets :
  Forall2 (fun f v => apply_to f = Return v) fs rets ->
  call_receivers (map apply_to fs) = (Return rets, []).
Proof.
  induction 1 as [|f v fs rets Hf _ IH]; [reflexivity|].
  cbn [map call_receivers]. rewrite Hf. unfold lift. by rewrite bind_Return, IH.
Qed.

Lemma pre_dispatch_signals_off env request :
  passes_checks (dmp_router_callback request) = true ->
  SIGNALS env = false ->
  pre_dispatch env request = (Return None, info_processing env (data request)).
Proof.
  intros Hcb Hsig. unfold pre_dispatch, info_processing. rewrite Hsig.
  destruct (dmp_router_callback request) as [|m|[f|c|tr|x]|[|f|c]]; try discriminate Hcb;
    destruct (log_info_enabled env); reflexivity.
Qed.

Lemma pre_dispatch_signals_on env request rets :
  passes_checks (dmp_router_callback request) = true ->
  SIGNALS env = true ->
  Forall2 (fun f v => f (data request) = Return v) (pre_receivers env) rets ->
  pre_dispatch env request
  = (Return (first_response rets),
     info_processing env (data request) ++ [EvSend dmp_signal_pre_process_request]).
Proof.
  intros Hcb Hsig Hrets. unfold pre_dispatch, info_processing, send. rewrite Hsig.
  rewrite (call_receivers_values (fun f => f (data request)) _ _ Hrets).
  destruct (dmp_router_callback request) as [|m|[f|c|tr|x]|[|f|c]]; try discriminate Hcb;
    destruct (log_info_enabled env); reflexivity.
Qed.

Lemma call_receivers_raises {F} (apply_to : F -> res value) before g later rets e :
  Forall2 (fun f v => apply_to f = Return v) before rets ->
  apply_to g = Raise e ->
  call_receivers (map apply_to (before ++ g :: later)) = (Raise e, []).
Proof.
  intros Hbefore Hg. induction Hbefore as [|f v fs vs Hf _ IH].
  - cbn [app map call_receivers]. by rewrite Hg.
  - change (map apply_to ((f :: fs) ++ g :: later))
      with (apply_to f :: map apply_to (fs ++ g :: later)).
    cbn [call_receivers]. rewrite Hf. unfold lift. by rewrite bind_Return, IH.
Qed.

(** X6: with signals on, the results of the pre-signal receivers are looked
    at only after every receiver has been called.  When all of them return
    and one answers with a response, the first such response is what
    [route_request] returns: no converter and no view is called and the
    post-signal is not sent.  When one of them raises (anything but a
    redirect exception), [route_request] raises that exception, also when a
    receiver called before it had answered with a response. *)
Theorem pre_signal_response_short_circuits env request kwargs fuel :
  passes_checks (dmp_router_callback request) = true ->
  SIGNALS env = true ->
  (forall rets v,
     Forall2 (fun f r => f (data request) = Return r) (pre_receivers env) rets ->
     first_response rets = Some v ->
     route_request env (S fuel) request kwargs
     = (Return (Some v),
        info_processing env (data request) ++ [EvSend dmp_signal_pre_process_request]))
  /\ (forall before g later rets e,
       pre_receivers env = before ++ g :: later ->
       Forall2 (fun f r => f (data request) = Return r) before rets ->
       g (data request) = Raise e ->
       match e with
       | InternalRedirectException _ _ | RedirectException _ => False
       | _ => True
       end ->
       route_request env (S fuel) request kwargs
       = (Raise e,
          info_processing env (data request) ++ [EvSend dmp_signal_pre_process_request])).
Proof.
  intros Hcb Hsig. split.
  - intros rets v Hrets Hfirst. cbn [route_request].
    unfold route_iteration, route_try.
    rewrite (pre_dispatch_signals_on env request rets Hcb Hsig Hrets), Hfirst.
    rewrite bind_Return. cbn. by rewrite !app_nil_r.
  - intros before g later rets e Hrecv Hbefore Hg Hne.
    apply route_request_Raise, route_iteration_escape; [|exact Hne].
    unfold route_try, pre_dispatch, info_processing, send. rewrite Hsig, Hrecv.
    rewrite (call_receivers_raises (fun f => f (data request)) before g later rets e
               Hbefore Hg).
    destruct (dmp_router_callback request) as [|m|[f|c|tr|x]|[|f|c]];
      try discriminate Hcb; destruct (log_info_enabled env); reflexivity.
Qed.

Lemma pre_signal_response_short_circuits_witness :
  route_request guarded_env 1 show_request ∅
  = (Return (Some closed_response), [EvSend dmp_signal_pre_process_request])
  /\ route_request failing_receiver_env 1 show_request ∅
     = (Raise (OtherException "RuntimeError" "receiver failed"),
        [EvSend dmp_signal_pre_process_request]).
Proof.
  split.
  - apply (proj1 (pre_signal_response_short_circuits guarded_env show_request ∅ 0
                    eq_refl eq_refl)
             [VNone; closed_response; ok_response] closed_response).
    + repeat constructor.
    + reflexivity.
  - apply (proj2 (pre_signal_response_short_circuits failing_receiver_env show_request ∅ 0
                    eq_refl eq_refl)
             [fun _ => Return closed_response]
             (fun _ => Raise (OtherException "RuntimeError" "receiver failed"))
             [] [closed_response] (OtherException "RuntimeError" "receiver failed")).
    + reflexivity.
    + repeat constructor.
    + reflexivity.
    + exact I.
Defined.

(** X7: a request on which [dmp_router_callback] is not set ends the loop in
    its first pass with [ImproperlyConfigured]: nothing is logged, no signal
    is sent, and the exception is not turned into a not-found signal. *)
Theorem unset_callback_is_a_configuration_error env rd kwargs fuel :
  route_request env (S fuel) {| data := rd; dmp_router_callback := CbNone |} kwargs
  = (Raise (ImproperlyConfigured missing_callback_msg), []).
Proof. by apply route_request_Raise, route_iteration_escape. Qed.

(** X8: when the body of a pass raises [RedirectException] and the callback
    is a router, the loop ends in that pass with what the exception's
    [get_response] gives; the redirect is logged at error level only when
    the request names no class, and the redirect signal is sent only when
    signals are on. *)
Theorem external_redirect_ends_loop env request kwargs r redirect_to t fuel :
  route_try env request kwargs = (Raise (RedirectException redirect_to), t) ->
  dmp_router_callback request = CbRouter r ->
  (SIGNALS env = true ->
   Forall (fun x => exists v, x = Return v)
          (map (fun g => g (data request) (RedirectException redirect_to))
               (redirect_receivers env))) ->
  route_request env (S fuel) request kwargs
  = (redirect_result env redirect_to (data request),
     t ++ redirect_log request (router_message r (data request)) redirect_to
       ++ redirect_send env).
Proof.
  intros Htry Hcb Hrecv. cbn [route_request]. unfold route_iteration.
  rewrite Htry, bind_Raise. cbn [catch].
  unfold external_redirect, redirect_log, redirect_send, redirect_result, send.
  rewrite Hcb. cbn [callback_message].
  destruct (SIGNALS env).
  - destruct (call_receivers_Return _ (Hrecv eq_refl)) as [vs ->].
    destruct (dmp_router_class (data request));
      destruct (redirect_get_response env redirect_to (data request));
      cbn; by rewrite ?app_nil_r.
  - destruct (dmp_router_class (data request));
      destruct (redirect_get_response env redirect_to (data request));
      cbn; by rewrite ?app_nil_r.
Qed.

Lemma external_redirect_ends_loop_witness :
  route_request replacing_env 1 leave_request ∅
  = (Return (Some (VResponse (HttpResponse 302 "/login/"))),
     [EvSend dmp_signal_pre_process_request;
      EvCall "leave" [VRequest (data leave_request)] ∅;
      EvLog ERROR (LogText "view function homepage.views.index.leave redirected processing to /login/.");
      EvSend dmp_signal_redirect_exception]).
Proof.
  refine (eq_trans
            (external_redirect_ends_loop replacing_env leave_request ∅
               (FunctionRouter leave_router) "/login/"
               [EvSend dmp_signal_pre_process_request;
                EvCall "leave" [VRequest (data leave_request)] ∅] 0 eq_refl eq_refl _) _).
  - intros _. repeat constructor. by eexists.
  - reflexivity.
Defined.

(** X9: when the callback answers and what the post-signal leaves of its
    answer is a response, that response is what [route_request] returns, in
    the same pass. *)
Theorem response_is_returned env request kwargs t_pre v t_view v' t_post fuel :
  pre_dispatch env request = (Return None, t_pre) ->
  callback_get_response env (dmp_router_callback request) (data request) kwargs
  = (Return v, t_view) ->
  post_signal env (data request) v = (Return v', t_post) ->
  is_response v' = true ->
  exists r,
    dmp_router_callback request = CbRouter r
    /\ route_request env (S fuel) request kwargs
       = (Return (Some v'),
          t_pre ++ info_calling env (router_message r (data request))
            ++ t_view ++ t_post).
Proof.
  intros Hpre Hview Hpost Hresp.
  destruct (dmp_router_callback request) as [|msg|r|o] eqn:Hcb; try discriminate Hview.
  exists r. split; [reflexivity|].
  cbn [route_request]. unfold route_iteration, route_try.
  rewrite Hpre, bind_Return. cbn [fst snd].
  unfold dispatch, info_calling. rewrite Hcb. cbn [callback_message]. rewrite Hview.
  destruct (log_info_enabled env); rewrite !bind_ret;
    [rewrite bind_emit; cbn [fst snd]|];
    rewrite bind_Return, Hpost, bind_Return, Hresp; cbn;
    by rewrite ?app_nil_r.
Qed.

Lemma response_is_returned_witness :
  route_request bare_env 1 show_request ∅
  = (Return (Some ok_response),
     [EvConvert false "a" (VStr "x");
      EvCall "show" [VRequest (sample_request ["x"]); VStr "x"] ∅]).
Proof.
  destruct (response_is_returned bare_env show_request ∅ [] ok_response
              [EvConvert false "a" (VStr "x");
               EvCall "show" [VRequest (sample_request ["x"]); VStr "x"] ∅]
              ok_response [] 0)
    as (r & Hcb & Hrun); [reflexivity | reflexivity | reflexivity | reflexivity |].
  injection Hcb as <-. exact Hrun.
Defined.

Lemma last_not_None_eq rets :
  forall response, last_not_None response rets = last_replacement response rets.
Proof.
  unfold last_not_None, last_replacement.
  induction rets as [|r rets IH]; intros response; [reflexivity|].
  cbn [fold_left]. rewrite IH, filter_cons.
  destruct (is_None r) eqn:Hr.
  - destruct (decide (true = false)) as [Habs|_]; [discriminate Habs | reflexivity].
  - destruct (decide (false = false)) as [_|Habs]; [|by destruct Habs].
    rewrite last_cons. by destruct (last (filter _ rets)).
Qed.

(** X10: with signals on, every post-signal receiver is called with the
    response of the view, and the response that goes on is the result of the
    last receiver that did not return [None], or the view's own response
    when all of them returned [None]. *)
Theorem post_signal_last_replacement_wins env rd response rets :
  SIGNALS env = true ->
  Forall2 (fun f r => f rd response = Return r) (post_receivers env) rets ->
  post_signal env rd response
  = (Return (last_replacement response rets), [EvSend dmp_signal_post_process_request]).
Proof.
  intros Hsig Hrets. unfold post_signal, send. rewrite Hsig.
  rewrite (call_receivers_values (fun f => f rd response) _ _ Hrets).
  cbn. by rewrite last_not_None_eq.
Qed.

Lemma post_signal_last_replacement_wins_witness :
  post_signal replacing_env (sample_request []) ok_response
  = (Return closed_response, [EvSend dmp_signal_post_process_request]).
Proof.
  apply (post_signal_last_replacement_wins replacing_env (sample_request []) ok_response
           [VStr "first"; closed_response; VNone]).
  - reflexivity.
  - repeat constructor.
Defined.

(** ** route_request: over any number of passes *)

Lemma route_iteration_Returned env request kwargs v t :
  route_iteration env request kwargs = (Return (Returned v), t) ->
  is_response v = true
  \/ exists redirect_to, redirect_get_response env redirect_to (data request) = Return v.
Proof.
  unfold route_iteration.
  destruct (route_try env request kwargs) as [[w|e] t0] eqn:Htry.
  - rewrite bind_Return. cbn. intros [= <- _]. left. by apply route_try_Return in Htry.
  - rewrite bind_Raise. unfold catch.
    destruct e; try discriminate.
    + destruct (let! request' := internal_redirect _ _ _ _ _ in _) as [[[w|r']|e] t1] eqn:H;
        try discriminate.
      apply bind_Return_inv in H as (x & ? & ? & _ & H & _). discriminate H.
    + destruct (let! w := external_redirect _ _ _ _ in _) as [[s|e] t1] eqn:H;
        [|discriminate].
      intros [= Hs _]. rewrite Hs in H.
      apply bind_Return_inv in H as (w & t2 & t3 & Hext & Hret & _).
      injection Hret as <- _. right. exists redirect_to.
      unfold external_redirect in Hext.
      apply bind_Return_inv in Hext as (? & ? & ? & _ & Hext & _).
      apply bind_Return_inv in Hext as (? & ? & ? & _ & Hext & _).
      by injection Hext as ->.
Qed.

(** X11: however many passes the loop makes, a value it returns is either a
    response (from the view, the post-signal or a pre-signal receiver) or
    the result of the [get_response] of a [RedirectException]. *)
Theorem returned_value_is_response_or_redirect env fuel :
  forall request kwargs v t,
    route_request env fuel request kwargs = (Return (Some v), t) ->
    is_response v = true
    \/ exists redirect_to rd, redirect_get_response env redirect_to rd = Return v.
Proof.
  induction fuel as [|fuel IH]; intros request kwargs v t Hrun; [discriminate Hrun|].
  cbn [route_request] in Hrun.
  apply bind_Return_inv in Hrun as ([w|request'] & t1 & t2 & Hit & Hrun & _).
  - injection Hrun as <- _.
    apply route_iteration_Returned in Hit as [H|[to H]]; [by left|].
    right. by exists to, (data request).
  - by apply IH in Hrun.
Qed.

Lemma returned_value_is_response_or_redirect_witness :
  is_response ok_response = true
  \/ exists redirect_to rd, redirect_get_response bare_env redirect_to rd = Return ok_response.
Proof.
  apply (returned_value_is_response_or_redirect bare_env 3 show_request ∅ ok_response
           [EvConvert false "a" (VStr "x");
            EvCall "show" [VRequest (sample_request ["x"]); VStr "x"] ∅]).
  reflexivity.
Defined.

(** ** What routers and the loop never do *)

Lemma view_function_get_response_events env self request kwargs :
  Forall (fun ev => is_view_event ev = true)
         (snd (ViewFunctionRouter.get_response env self request kwargs)).
Proof.
  unfold ViewFunctionRouter.get_response. apply bind_trace.
  - unfold check_length. destruct (_ <? _); trace_step.
  - intros _ _. apply bind_trace.
    + destruct (convert_from_inv env (ViewFunctionRouter.make_task self request) request
                  (parameters self) 0 [VRequest request] kwargs) as [Hev _].
      eapply Forall_impl; [exact Hev|]. by intros [].
    + intros [args kw] _. repeat trace_step.
Qed.

Lemma router_get_response_events env r request kwargs :
  Forall (fun ev => is_view_event ev = true)
         (snd (router_get_response env r request kwargs)).
Proof.
  destruct r as [f|c|tr|x]; cbn [router_get_response].
  - apply view_function_get_response_events.
  - unfold class_get_response, ClassBasedRouter.get_response.
    destruct (dict_get _ _) as [ep|].
    + apply view_function_get_response_events.
    + repeat trace_step.
  - unfold TemplateViewRouter.get_response. repeat trace_step.
  - unfold RegistryExceptionRouter.get_response.
    destruct (global_bound _); trace_step.
Qed.

(** X12: while it answers a request, a router of any kind sends no signal
    and makes no call to [import_module]. *)
Theorem router_sends_and_imports_nothing env r request kwargs :
  (forall s, EvSend s ∉ snd (router_get_response env r request kwargs))
  /\ (forall m, EvImport m ∉ snd (router_get_response env r request kwargs)).
Proof.
  pose proof (router_get_response_events env r request kwargs) as Hev.
  rewrite Forall_forall in Hev.
  split; intros x Hin; apply Hev in Hin; discriminate Hin.
Qed.

Lemma callback_message_quiet cb rd : snd (callback_message cb rd) = [].
Proof. by destruct cb. Qed.

Lemma callback_message_unsent cb rd :
  Forall (fun ev => is_send_event ev = false) (snd (callback_message cb rd)).
Proof. rewrite callback_message_quiet. constructor. Qed.

Lemma callback_get_response_unsent env cb rd kwargs :
  Forall (fun ev => is_send_event ev = false)
         (snd (callback_get_response env cb rd kwargs)).
Proof.
  destruct cb as [|m|r|o]; try constructor.
  cbn [callback_get_response].
  eapply Forall_impl; [apply router_get_response_events|].
  by intros [].
Qed.

Lemma route_try_unsent env request kwargs :
  SIGNALS env = false ->
  Forall (fun ev => is_send_event ev = false) (snd (route_try env request kwargs)).
Proof.
  intros Hsig. unfold route_try. apply bind_trace.
  - unfold pre_dispatch. rewrite Hsig.
    destruct (dmp_router_callback request) as [|m|r|[|f|c]];
      first [apply throw_trace|idtac];
      (apply bind_trace;
       [destruct (log_info_enabled env); repeat trace_step
       |intros _ _; destruct (is_not_found_marker _);
        [apply bind_trace; [apply callback_message_unsent | intros; repeat trace_step]
        |trace_step]]).
  - intros [early|] _; [trace_step|].
    unfold dispatch, post_signal. rewrite Hsig. apply bind_trace.
    + destruct (log_info_enabled env); [|trace_step].
      apply bind_trace; [apply callback_message_unsent | intros; repeat trace_step].
    + intros _ _. apply bind_trace; [apply callback_get_response_unsent|].
      intros response _. rewrite bind_ret.
      destruct (is_response response); [trace_step|].
      apply bind_trace; [apply callback_message_unsent | intros; repeat trace_step].
Qed.

Lemma route_iteration_unsent env request kwargs :
  SIGNALS env = false ->
  Forall (fun ev => is_send_event ev = false) (snd (route_iteration env request kwargs)).
Proof.
  intros Hsig. unfold route_iteration. apply catch_trace.
  - apply bind_trace; [by apply route_try_unsent | intros; trace_step].
  - intros e k _ Hk. destruct e; try discriminate Hk; injection Hk as <-.
    + unfold internal_redirect. rewrite Hsig. rewrite bind_ret.
      apply bind_trace; [|intros; trace_step].
      apply bind_trace.
      * unfold resolve_redirect. apply catch_trace.
        -- apply bind_trace; [trace_step|]. intros _ _.
           apply bind_trace; [trace_step|]. intros m _.
           destruct (mod_attrs m !! _) as [[| |]|]; trace_step.
        -- intros e k _ Hk. destruct e; try discriminate Hk; injection Hk as <-.
           trace_step.
      * intros cb _. repeat trace_step.
    + unfold external_redirect. rewrite Hsig.
      apply bind_trace; [|intros; trace_step].
      apply bind_trace.
      * destruct (dmp_router_class _); [trace_step|].
        apply bind_trace; [apply callback_message_unsent | intros; repeat trace_step].
      * intros _ _. rewrite bind_ret. trace_step.
Qed.

(** X13: with signals off, no signal is ever sent, whatever the callback is
    and however many passes the loop makes: no receiver of the pre-, post-,
    internal-redirect or redirect signal runs. *)
Theorem signals_off_nothing_sent env fuel :
  SIGNALS env = false ->
  forall request kwargs s,
    EvSend s ∉ snd (route_request env fuel request kwargs).
Proof.
  intros Hsig.
  assert (forall request kwargs,
            Forall (fun ev => is_send_event ev = false)
                   (snd (route_request env fuel request kwargs))) as Hall.
  { induction fuel as [|fuel IH]; intros request kwargs; [constructor|].
    cbn [route_request]. apply bind_trace; [by apply route_iteration_unsent|].
    intros [v|request'] _; [trace_step | apply IH]. }
  intros request kwargs s Hin.
  specialize (Hall request kwargs). rewrite Forall_forall in Hall.
  apply Hall in Hin. discriminate Hin.
Qed.

Lemma signals_off_nothing_sent_witness :
  EvSend dmp_signal_internal_redirect_exception
    ∉ snd (route_request other_env 3 forward_request ∅).
Proof.
  apply (signals_off_nothing_sent other_env 3 eq_refl forward_request ∅).
Defined.

(** ** router_factory: what it builds and what it touches *)

Lemma init_quiet module f dk : snd (ViewFunctionRouter.init module f dk) = [].
Proof. unfold ViewFunctionRouter.init. by destruct (fn_signature f). Qed.

Lemma init_Return module f dk r t :
  ViewFunctionRouter.init module f dk = (Return r, t) ->
  function r = f /\ decorator_kwargs r = dk /\ vfr_module r = module.
Proof.
  unfold ViewFunctionRouter.init. destruct (fn_signature f) as [sig|e]; [|discriminate].
  cbn. by intros [= <- _].
Qed.

Lemma collect_quiet module instance dk names :
  forall eps,
    snd (ClassBasedRouter.collect ViewFunctionRouter.init module instance dk names eps) = [].
Proof.
  induction names as [|n names IH]; intros eps; [reflexivity|].
  cbn [ClassBasedRouter.collect].
  destruct (inst_attrs instance !! n) as [f|]; [|apply IH].
  pose proof (init_quiet module f dk) as Hq.
  destruct (ViewFunctionRouter.init module f dk) as [[ep|e] t]; cbn [snd] in Hq; subst t.
  - rewrite bind_Return. cbn [fst snd app]. apply IH.
  - reflexivity.
Qed.

Lemma class_init_quiet module instance dk : snd (class_init module instance dk) = [].
Proof.
  unfold class_init, ClassBasedRouter.init.
  pose proof (collect_quiet module instance dk (http_method_names instance) []) as Hq.
  destruct (ClassBasedRouter.collect _ _ _ _ _ _) as [[eps|e] t]; cbn [snd] in Hq; subst t;
    reflexivity.
Qed.

Lemma collect_total module instance dk names :
  (forall k f, inst_attrs instance !! k = Some f -> exists sig, fn_signature f = Return sig) ->
  forall eps, exists eps',
    ClassBasedRouter.collect ViewFunctionRouter.init module instance dk names eps
    = (Return eps', []).
Proof.
  intros Hsig. induction names as [|n names IH]; intros eps; [by exists eps|].
  cbn [ClassBasedRouter.collect].
  destruct (inst_attrs instance !! n) as [f|] eqn:Hf; [|apply IH].
  destruct (Hsig n f Hf) as [sig Hs]. unfold ViewFunctionRouter.init at 1. rewrite Hs.
  cbn. match goal with |- context [dict_set n ?ep eps] =>
    destruct (IH (dict_set n ep eps)) as [eps' ->] end.
  by exists eps'.
Qed.

Lemma collect_values module instance dk names :
  forall eps eps' t,
    ClassBasedRouter.collect ViewFunctionRouter.init module instance dk names eps
    = (Return eps', t) ->
    forall k ep,
      dict_get k eps' = Some ep ->
      dict_get k eps = Some ep
      \/ (inst_attrs instance !! k = Some (function ep) /\ decorator_kwargs ep = dk).
Proof.
  induction names as [|n names IH]; intros eps eps' t Hrun k ep Hget.
  - injection Hrun as <- _. by left.
  - cbn [ClassBasedRouter.collect] in Hrun.
    destruct (inst_attrs instance !! n) as [f|] eqn:Hf.
    + apply bind_Return_inv in Hrun as (ep0 & t1 & t2 & Hinit & Hrun & _).
      destruct (IH _ _ _ Hrun k ep Hget) as [Hold|Hnew]; [|by right].
      destruct (decide (n = k)) as [<-|Hne].
      * rewrite dict_get_set_eq in Hold. injection Hold as <-.
        apply init_Return in Hinit as (-> & -> & _). by right.
      * rewrite dict_get_set_ne in Hold by exact Hne. by left.
    + by apply (IH _ _ _ Hrun).
Qed.

(** X14: the factory imports the module once when the spec lookup found it
    and not at all otherwise; it calls no view, no converter and no logger
    and sends no signal. *)
Theorem factory_imports_found_module_once env app_label module_name function_name
    fallback_template :
  snd (router_factory env app_label module_name function_name fallback_template)
  = factory_imports env module_name.
Proof.
  unfold factory_imports.
  destruct (find_spec env module_name) as [[[]|]|e] eqn:Hspec.
  - unfold router_factory.
    rewrite (router_factory_body_with_spec _ _ _ _ _ Hspec).
    destruct (import_module env module_name) as [module|e].
    2:{ by destruct e. }
    destruct (mod_attrs module !! function_name) as [[|f|c]|]; try reflexivity.
    + destruct (fn_decoration f) as [[a kw]|]; [|reflexivity].
      rewrite bind_emit. cbn [fst snd].
      pose proof (init_quiet module f (Some kw)) as Hq.
      destruct (ViewFunctionRouter.init module f (Some kw)) as [[r|e] t];
        cbn [snd] in Hq; subst t; [reflexivity | by destruct e].
    + rewrite bind_emit. cbn [fst snd].
      destruct (cls_new c) as [instance|e]; [|by destruct e].
      unfold lift. rewrite bind_Return. cbn [fst snd app].
      pose proof (class_init_quiet module instance (snd <$> cls_decoration c)) as Hq.
      destruct (class_init module instance (snd <$> cls_decoration c)) as [[r|e] t];
        cbn [snd] in Hq; subst t; [reflexivity | by destruct e].
  - unfold router_factory.
    rewrite (router_factory_body_without_spec env app_label module_name function_name
               fallback_template (or_introl Hspec)).
    by destruct (get_template env app_label fallback_template) as [tpl|[]].
  - assert ((exists msg, e = ValueError msg) \/ (forall msg, e <> ValueError msg))
      as [[msg ->]|Hne].
    { destruct e; try (right; discriminate). left. by eexists. }
    + unfold router_factory.
      rewrite (router_factory_body_without_spec env app_label module_name function_name
                 fallback_template (or_intror (ex_intro _ msg Hspec))).
      by destruct (get_template env app_label fallback_template) as [tpl|[]].
    + unfold router_factory.
      rewrite (router_factory_body_spec_error _ _ _ _ _ e Hspec Hne).
      by destruct e.
Qed.

(** X15: when no module spec is found and the fallback template loads, the
    factory returns a template router for it without importing anything,
    and the router answers a request by rendering the template with the
    keyword arguments as context. *)
Theorem template_fallback env app_label module_name function_name fallback_template tpl :
  spec_absent env module_name ->
  get_template env app_label fallback_template = Return tpl ->
  let r := {| app_name := app_label; template_name := fallback_template |} in
  router_factory env app_label module_name function_name fallback_template
  = (Return (TemplateRouter r), [])
  /\ forall request kwargs,
       router_get_response env (TemplateRouter r) request kwargs
       = (render_to_response tpl request kwargs, []).
Proof.
  intros Habs Htpl r. split.
  - unfold router_factory.
    by rewrite (router_factory_body_without_spec _ _ _ _ _ Habs), Htpl.
  - intros request kwargs. cbn [router_get_response].
    unfold TemplateViewRouter.get_response. cbn [app_name template_name r].
    rewrite Htpl. cbn. by destruct (render_to_response tpl request kwargs).
Qed.

Lemma template_fallback_witness :
  router_factory template_env "homepage" "" "process_request" "about.html"
  = (Return (TemplateRouter {| app_name := "homepage"; template_name := "about.html" |}), [])
  /\ router_get_response template_env
       (TemplateRouter {| app_name := "homepage"; template_name := "about.html" |})
       (sample_request []) ∅
     = (Return (VResponse (HttpResponse 200 "page")), []).
Proof.
  destruct (template_fallback template_env "homepage" "" "process_request" "about.html"
              page_template)
    as [Hf Hr].
  - right. by eexists.
  - reflexivity.
  - split; [exact Hf | exact (Hr (sample_request []) ∅)].
Defined.

Lemma router_factory_Return env app_label module_name function_name fallback_template router :
  fst (router_factory env app_label module_name function_name fallback_template) = Return router ->
  fst (router_factory_body env app_label module_name function_name fallback_template)
  = Return router
  \/ exists msg,
       fst (router_factory_body env app_label module_name function_name fallback_template)
       = Raise (ViewDoesNotExist msg)
       /\ router = ExceptionRouter {| exc := ViewDoesNotExist msg |}.
Proof.
  unfold router_factory.
  destruct (router_factory_body _ _ _ _ _) as [[r|e] t]; [intros H; by left|].
  destruct e; try discriminate. cbn. intros [= <-]. right. by eexists.
Qed.

(** X16: the kind of router the factory returns tells what it found: a
    template router only when no module spec was found and the template
    loads; a function router only for a function of the imported module
    that carries the [view_function] decoration, built with the decorator's
    keyword arguments; a class router only for a [View] subclass of the
    imported module that could be instantiated; a registry-exception router
    always holds a [ViewDoesNotExist]. *)
Theorem router_kind_tells_what_was_found env app_label module_name function_name
    fallback_template router :
  fst (router_factory env app_label module_name function_name fallback_template) = Return router ->
  router_kind_explained env app_label module_name function_name fallback_template router.
Proof.
  intros Hrun. apply router_factory_Return in Hrun as [Hrun|(msg & _ & ->)].
  2:{ by exists msg. }
  destruct (find_spec env module_name) as [[[]|]|e] eqn:Hspec.
  - rewrite (router_factory_body_with_spec _ _ _ _ _ Hspec) in Hrun.
    destruct (import_module env module_name) as [module|e] eqn:Himp; [|discriminate Hrun].
    destruct (mod_attrs module !! function_name) as [[|f|c]|] eqn:Hattr;
      try discriminate Hrun.
    + destruct (fn_decoration f) as [[a kw]|] eqn:Hdec; [|discriminate Hrun].
      rewrite bind_emit in Hrun. cbn [fst] in Hrun.
      pose proof (init_quiet module f (Some kw)) as Hq.
      destruct (ViewFunctionRouter.init module f (Some kw)) as [[r|e] t] eqn:Hinit;
        [|discriminate Hrun].
      cbn in Hrun, Hq. injection Hrun as <-. subst t.
      by exists module, f, a, kw.
    + rewrite bind_emit in Hrun. cbn [fst] in Hrun.
      destruct (cls_new c) as [instance|e] eqn:Hnew; [|discriminate Hrun].
      unfold lift in Hrun. rewrite bind_Return in Hrun. cbn [fst] in Hrun.
      pose proof (class_init_quiet module instance (snd <$> cls_decoration c)) as Hq.
      destruct (class_init module instance (snd <$> cls_decoration c)) as [[r|e] t]
        eqn:Hinit; [|discriminate Hrun].
      cbn in Hrun, Hq. injection Hrun as <-. subst t.
      by exists module, c, instance.
  - rewrite (router_factory_body_without_spec env app_label module_name function_name
               fallback_template (or_introl Hspec)) in Hrun.
    destruct (get_template env app_label fallback_template) as [tpl|e] eqn:Htpl.
    + injection Hrun as <-. split; [by left|]. split; [reflexivity | by exists tpl].
    + destruct e; discriminate Hrun.
  - assert ((exists msg, e = ValueError msg) \/ (forall msg, e <> ValueError msg))
      as [[msg ->]|Hne].
    { destruct e; try (right; discriminate). left. by eexists. }
    + rewrite (router_factory_body_without_spec env app_label module_name function_name
                 fallback_template (or_intror (ex_intro _ msg Hspec))) in Hrun.
      destruct (get_template env app_label fallback_template) as [tpl|e] eqn:Htpl.
      * injection Hrun as <-. split; [right; by exists msg|].
        split; [reflexivity | by exists tpl].
      * destruct e; discriminate Hrun.
    + rewrite (router_factory_body_spec_error _ _ _ _ _ e Hspec Hne) in Hrun.
      discriminate Hrun.
Qed.

Lemma router_kind_tells_what_was_found_witness :
  router_kind_explained other_env "homepage" "homepage.views.other" "show" "other.html"
    (FunctionRouter {| vfr_module := other_module; function := show_view;
                       decorator_kwargs := Some ∅; parameters := [param_a] |}).
Proof.
  apply (router_kind_tells_what_was_found other_env "homepage" "homepage.views.other"
           "show" "other.html").
  reflexivity.
Defined.

(** X17: a [View] subclass needs no [view_function] decoration: when it can
    be instantiated and the signatures of its methods can be read, the
    factory returns a class router after one import; the router has an
    endpoint for exactly the defined entries of [http_method_names], each
    wrapping the method of that name with the decorator keyword arguments of
    the class ([None] for an undecorated class). *)
Theorem view_class_gets_class_router env app_label module_name function_name
    fallback_template module c instance :
  find_spec env module_name = Return (Some tt) ->
  import_module env module_name = Return module ->
  mod_attrs module !! function_name = Some (PyViewClass c) ->
  cls_new c = Return instance ->
  (forall k f, inst_attrs instance !! k = Some f -> exists sig, fn_signature f = Return sig) ->
  exists r,
    router_factory env app_label module_name function_name fallback_template
    = (Return (ClassRouter r), [EvImport module_name])
    /\ (forall k, is_Some (dict_get k (endpoints r))
                  <-> k ∈ http_method_names instance
                      /\ is_Some (inst_attrs instance !! k))
    /\ (forall k ep, dict_get k (endpoints r) = Some ep ->
                     inst_attrs instance !! k = Some (function ep)
                     /\ decorator_kwargs ep = snd <$> cls_decoration c).
Proof.
  intros Hspec Himp Hattr Hnew Hsig.
  destruct (collect_total module instance (snd <$> cls_decoration c)
              (http_method_names instance) Hsig []) as [eps Hc].
  exists {| endpoints := eps |}. split; [|split].
  - assert (class_init module instance (snd <$> cls_decoration c)
            = (Return {| endpoints := eps |}, [])) as Hci.
    { unfold class_init, ClassBasedRouter.init. by rewrite Hc. }
    unfold router_factory.
    rewrite (router_factory_body_with_spec _ _ _ _ _ Hspec), Himp, Hattr, Hnew.
    rewrite bind_emit. unfold lift. rewrite bind_Return. cbn [fst snd].
    rewrite Hci. reflexivity.
  - intros k. destruct (collect_spec _ _ _ _ _ _ _ _ Hc) as [Hiff _].
    cbn [endpoints]. rewrite Hiff. split; [|by right].
    intros [[? Hx]|H]; [discriminate Hx | exact H].
  - intros k ep Hget. cbn [endpoints] in Hget.
    destruct (collect_values _ _ _ _ _ _ _ Hc k ep Hget) as [Hx|H];
      [discriminate Hx | exact H].
Qed.

Lemma view_class_gets_class_router_witness :
  exists r,
    router_factory account_env "homepage" "homepage.views.account" "Account" "account.html"
    = (Return (ClassRouter r), [EvImport "homepage.views.account"])
    /\ is_Some (dict_get "get" (endpoints r))
    /\ ~ is_Some (dict_get "delete" (endpoints r)).
Proof.
  destruct (view_class_gets_class_router account_env "homepage" "homepage.views.account"
              "Account" "account.html" account_module account_class account_instance)
    as (r & Hrun & Hiff & _).
  - reflexivity.
  - reflexivity.
  - reflexivity.
  - reflexivity.
  - intros k f Hf.
    destruct (decide (k = "get")) as [->|Hg].
    { injection Hf as <-. by eexists. }
    destruct (decide (k = "post")) as [->|Hp].
    { injection Hf as <-. by eexists. }
    unfold account_instance in Hf. cbn [inst_attrs] in Hf.
    rewrite lookup_insert_ne in Hf by (intros Heq; by apply Hg).
    rewrite lookup_singleton_ne in Hf by (intros Heq; by apply Hp).
    discriminate Hf.
  - exists r. split; [exact Hrun|]. split.
    + apply Hiff. split; [vm_compute; left | by eexists].
    + intros H. apply Hiff in H as [_ [f Hf]]. discriminate Hf.
Defined.
